(** * Gender-bias detectors: distancing phrases, doubt raisers, superlatives

    A shallow embedding of the three detectors of the [genderbias] package
    ([partsofspeech], [raises_doubt], [superlatives]) and of the fragment of
    Python they run on: sequences with negative indexing, exceptions,
    string building, and the [re] patterns the detectors assemble at run time.

    Strings are byte strings; [str.lower], [\s] and [\w] are modelled on
    ASCII.  The linguistic toolkit is a parameter: the tagger is a function of
    the token sequence, and the sense identifiers named by the detectors are
    assumed present in the lexical database (a missing identifier is a
    configuration error that no detector handles). *)

From Stdlib Require Import String Ascii List ZArith Lia Bool Arith.
Import ListNotations.

Local Open Scope string_scope.
Local Open Scope nat_scope.
Local Open Scope list_scope.

Local Infix "+++" := String.append (right associativity, at level 60).

(** ** Python values, exceptions and sequence operations *)

Inductive exn : Type :=
| IndexError   (* sequence or string index out of range *)
| ReError      (* re.error: the pattern does not compile *)
| TypeError.   (* re applied to something that is not a string *)

(** The result of running a piece of Python: a value, an exception, or a
    pattern that leaves the fragment of [re] syntax modelled in [Re]. *)
Inductive outcome (A : Type) : Type :=
| Ok (a : A)
| Raise (e : exn)
| Unmodelled.

Arguments Ok {A} a.
Arguments Raise {A} e.
Arguments Unmodelled {A}.

Definition bind {A B : Type} (m : outcome A) (f : A -> outcome B) : outcome B :=
  match m with
  | Ok a => f a
  | Raise e => Raise e
  | Unmodelled => Unmodelled
  end.

Notation "x <- m ;; k" := (bind m (fun x => k))
  (at level 61, m at next level, right associativity).

(** [for x in l: s = body(s, x)], stopping at the first exception. *)
Fixpoint for_each {A S : Type} (body : S -> A -> outcome S) (l : list A) (s : S)
  : outcome S :=
  match l with
  | [] => Ok s
  | x :: l' => s' <- body s x ;; for_each body l' s'
  end.

(** [l[i]] with Python's negative indices. *)
Definition py_getitem {A : Type} (l : list A) (i : Z) : outcome A :=
  let n := Z.of_nat (length l) in
  let j := (if i <? 0 then i + n else i)%Z in
  if ((0 <=? j) && (j <? n))%Z
  then match nth_error l (Z.to_nat j) with
       | Some x => Ok x
       | None => Raise IndexError
       end
  else Raise IndexError.

(** [s[0]] on a string. *)
Definition str_first (s : string) : outcome ascii :=
  match s with
  | EmptyString => Raise IndexError
  | String c _ => Ok c
  end.

Fixpoint enumerate_from {A : Type} (n : Z) (l : list A) : list (Z * A) :=
  match l with
  | [] => []
  | x :: l' => (n, x) :: enumerate_from (n + 1) l'
  end.

Definition enumerate {A : Type} (l : list A) : list (Z * A) := enumerate_from 0 l.

(** [x in l] for a list of strings. *)
Definition py_in (x : string) (l : list string) : bool :=
  existsb (String.eqb x) l.

Definition lower_ascii (c : ascii) : ascii :=
  let n := nat_of_ascii c in
  if (65 <=? n) && (n <=? 90) then ascii_of_nat (n + 32) else c.

(** [str.lower]. *)
Fixpoint lower (s : string) : string :=
  match s with
  | EmptyString => EmptyString
  | String c s' => String (lower_ascii c) (lower s')
  end.

(** [s[8:-2]]. *)
Definition slice_8_m2 (s : string) : string :=
  substring 8 (String.length s - 10) s.

(** What [doc.text()] hands to a detector.  By the document's contract it is
    the raw string, [PyStr]: the detectors search it with [re] and iterate
    over it, and a [str] iterates as its characters.  [PyList] is a sequence
    of tokens, what the loops ([for word in text]) are written for; no
    document hands one over, and [re] refuses it.  Properties are stated for
    every text and shown on strings. *)
Inductive pytext : Type :=
| PyStr (s : string)
| PyList (l : list string).

Definition chars_of (s : string) : list string :=
  map (fun c => String c EmptyString) (list_ascii_of_string s).

(** [for word in text]. *)
Definition iter_text (t : pytext) : list string :=
  match t with
  | PyStr s => chars_of s
  | PyList l => l
  end.

(** [nltk.bigrams]. *)
Fixpoint bigrams (l : list string) : list (string * string) :=
  match l with
  | a :: ((b :: _) as l') => (a, b) :: bigrams l'
  | _ => []
  end.

(** ** The fragment of [re] the detectors use *)

Module Re.

Inductive citem : Type :=
| CLit (c : ascii)
| CSpace              (* \s *)
| CWord.              (* \w *)

Inductive regex : Type :=
| Eps
| Chr (neg : bool) (items : list citem)
| Cat (r1 r2 : regex)
| Alt (r1 r2 : regex)
| Star (r : regex)
| Plus (r : regex)
| Group (capturing : bool) (r : regex).

Definition is_space (c : ascii) : bool :=
  let n := nat_of_ascii c in
  ((9 <=? n) && (n <=? 13)) || ((28 <=? n) && (n <=? 32)).

Definition is_alnum (c : ascii) : bool :=
  let n := nat_of_ascii c in
  ((48 <=? n) && (n <=? 57)) || ((65 <=? n) && (n <=? 90))
  || ((97 <=? n) && (n <=? 122)).

Definition is_word (c : ascii) : bool := is_alnum c || Ascii.eqb c "_".

Definition item_matches (it : citem) (c : ascii) : bool :=
  match it with
  | CLit d => Ascii.eqb c d
  | CSpace => is_space c
  | CWord => is_word c
  end.

Definition chr_matches (neg : bool) (items : list citem) (c : ascii) : bool :=
  xorb neg (existsb (fun it => item_matches it c) items).

(** *** Parsing a pattern, one character at a time *)

Inductive presult (A : Type) : Type :=
| POk (a : A)
| PError          (* re.error *)
| PUnmodelled.    (* syntax outside the fragment *)

Arguments POk {A} a.
Arguments PError {A}.
Arguments PUnmodelled {A}.

(** An open group: the alternatives already closed and the atoms of the
    alternative being read, newest first. *)
Record frame : Type := mkFrame {
  alts : list regex;
  cur : list regex;
  capt : bool
}.

Inductive mode : Type :=
| Normal
| Escape                                          (* after a backslash *)
| Opened                                          (* after "(" *)
| OpenedQ                                         (* after "(?" *)
| ClassStart                                      (* after "[" *)
| ClassBody (neg first : bool) (items : list citem)
| ClassEscape (neg : bool) (items : list citem).

Record pstate : Type := mkState {
  top : frame;
  below : list frame;
  md : mode
}.

Definition seq_regex (atoms : list regex) : regex :=
  fold_left (fun acc a => Cat a acc) atoms Eps.

Definition frame_regex (f : frame) : regex :=
  fold_left (fun acc s => Alt s acc) (alts f) (seq_regex (cur f)).

Definition push_atom (a : regex) (f : frame) : frame :=
  mkFrame (alts f) (a :: cur f) (capt f).

Definition with_top (st : pstate) (f : frame) : pstate :=
  mkState f (below st) Normal.

Definition is_special (c : ascii) : bool :=
  existsb (Ascii.eqb c)
    ["\"; "("; ")"; "["; "*"; "+"; "."; "^"; "$"; "?"; "{"; "|"]%char.

Definition escape_item (c : ascii) : presult citem :=
  if Ascii.eqb c "s" then POk CSpace
  else if Ascii.eqb c "w" then POk CWord
  else if is_alnum c then PUnmodelled
  else POk (CLit c).

Definition quantify (q : regex -> regex) (again : presult pstate) (st : pstate)
  : presult pstate :=
  match cur (top st) with
  | [] => PError                                  (* nothing to repeat *)
  | Star _ :: _ | Plus _ :: _ => again
  | a :: rest => POk (with_top st (mkFrame (alts (top st)) (q a :: rest) (capt (top st))))
  end.

Definition step_normal (st : pstate) (c : ascii) : presult pstate :=
  if Ascii.eqb c "\" then POk (mkState (top st) (below st) Escape)
  else if Ascii.eqb c "(" then
    POk (mkState (mkFrame [] [] true) (top st :: below st) Opened)
  else if Ascii.eqb c ")" then
    match below st with
    | [] => PError                                (* unbalanced parenthesis *)
    | f :: rest =>
        POk (mkState (push_atom (Group (capt (top st)) (frame_regex (top st))) f)
                     rest Normal)
    end
  else if Ascii.eqb c "|" then
    POk (with_top st (mkFrame (seq_regex (cur (top st)) :: alts (top st)) []
                              (capt (top st))))
  else if Ascii.eqb c "*" then quantify Star PError st      (* multiple repeat *)
  else if Ascii.eqb c "+" then quantify Plus PUnmodelled st
  else if Ascii.eqb c "[" then POk (mkState (top st) (below st) ClassStart)
  else if is_special c then PUnmodelled                     (* . ^ $ ? { *)
  else POk (with_top st (push_atom (Chr false [CLit c]) (top st))).

Definition step_class (st : pstate) (neg first : bool) (items : list citem)
           (c : ascii) : presult pstate :=
  if Ascii.eqb c "]" then
    if first then POk (mkState (top st) (below st) (ClassBody neg false (CLit c :: items)))
    else POk (with_top st (push_atom (Chr neg (rev items)) (top st)))
  else if Ascii.eqb c "\" then POk (mkState (top st) (below st) (ClassEscape neg items))
  else if Ascii.eqb c "-" then PUnmodelled                  (* ranges *)
  else POk (mkState (top st) (below st) (ClassBody neg false (CLit c :: items))).

Definition step (st : pstate) (c : ascii) : presult pstate :=
  match md st with
  | Normal => step_normal st c
  | Escape =>
      match escape_item c with
      | POk it => POk (with_top st (push_atom (Chr false [it]) (top st)))
      | PError => PError
      | PUnmodelled => PUnmodelled
      end
  | Opened =>
      if Ascii.eqb c "?" then POk (mkState (top st) (below st) OpenedQ)
      else step_normal st c
  | OpenedQ =>
      if Ascii.eqb c ":" then
        POk (with_top st (mkFrame (alts (top st)) (cur (top st)) false))
      else PUnmodelled                              (* other extensions *)
  | ClassStart =>
      if Ascii.eqb c "^" then POk (mkState (top st) (below st) (ClassBody true true []))
      else step_class st false true [] c
  | ClassBody neg first items => step_class st neg first items c
  | ClassEscape neg items =>
      match escape_item c with
      | POk it => POk (mkState (top st) (below st) (ClassBody neg false (it :: items)))
      | PError => PError
      | PUnmodelled => PUnmodelled
      end
  end.

Fixpoint run (p : string) (st : pstate) : presult pstate :=
  match p with
  | EmptyString => POk st
  | String c p' =>
      match step st c with
      | POk st' => run p' st'
      | PError => PError
      | PUnmodelled => PUnmodelled
      end
  end.

(** End of pattern: an open escape, class or group is an error. *)
Definition finish (st : pstate) : presult regex :=
  match md st with
  | Normal | Opened =>
      match below st with
      | [] => POk (frame_regex (top st))
      | _ :: _ => PError                            (* missing ), unterminated subpattern *)
      end
  | _ => PError
  end.

Definition init : pstate := mkState (mkFrame [] [] false) [] Normal.

(** [re.compile]. *)
Definition compile (p : string) : presult regex :=
  match run p init with
  | POk st => finish st
  | PError => PError
  | PUnmodelled => PUnmodelled
  end.

(** *** Backtracking matcher

    [rmatch r s k] matches [r] at the head of [s] and hands what is left
    to the continuation [k]; greedy repetition, first alternative first. *)

Definition cont : Type := list ascii -> option (list ascii).

Fixpoint star_loop (m : list ascii -> cont -> option (list ascii))
         (fuel : nat) (s : list ascii) (k : cont) : option (list ascii) :=
  match fuel with
  | O => k s
  | S fuel' =>
      match m s (fun s' => if length s' <? length s
                           then star_loop m fuel' s' k else None) with
      | Some t => Some t
      | None => k s
      end
  end.

Fixpoint rmatch (r : regex) (s : list ascii) (k : cont) {struct r}
  : option (list ascii) :=
  match r with
  | Eps => k s
  | Chr neg items =>
      match s with
      | c :: s' => if chr_matches neg items c then k s' else None
      | [] => None
      end
  | Cat r1 r2 => rmatch r1 s (fun s' => rmatch r2 s' k)
  | Alt r1 r2 =>
      match rmatch r1 s k with
      | Some t => Some t
      | None => rmatch r2 s k
      end
  | Star r' => star_loop (rmatch r') (S (length s)) s k
  | Plus r' => rmatch r' s (fun s' => star_loop (rmatch r') (S (length s')) s' k)
  | Group _ r' => rmatch r' s k
  end.

(** The scan of [finditer]: leftmost match at or after [pos], then on from
    its end; after an empty match the next one at the same place must not
    be empty. *)
Fixpoint search_all (r : regex) (fuel pos : nat) (s : list ascii)
         (must_advance : bool) : list (nat * nat) :=
  match fuel with
  | O => []
  | S fuel' =>
      let k := fun t => if must_advance && (length s <=? length t)
                        then None else Some t in
      match rmatch r s k with
      | Some t =>
          let e := pos + (length s - length t) in
          (pos, e) :: (if e =? pos then search_all r fuel' pos s true
                       else search_all r fuel' e t false)
      | None =>
          match s with
          | [] => []
          | _ :: s' => search_all r fuel' (S pos) s' false
          end
      end
  end.

(** [[m.span() for m in re.finditer(p, text)]]. *)
Definition finditer (p : string) (text : pytext) : outcome (list (nat * nat)) :=
  match compile p with
  | PError => Raise ReError
  | PUnmodelled => Unmodelled
  | POk r =>
      match text with
      | PyStr s =>
          let cs := list_ascii_of_string s in
          Ok (search_all r (2 * length cs + 2) 0 cs false)
      | PyList _ => Raise TypeError
      end
  end.

End Re.

(** ** Reports *)

(** Modelled from the spec: [genderbias.detector] ([Issue], [Flag], [Report])
    is not part of the sources at hand.  An issue is a category label with an
    explanation, a flag is a character span (end exclusive) with its issue, a
    report is created empty under a label and collects flags in order and an
    optional summary. *)
Record Issue : Type := mkIssue {
  issue_name : string;
  issue_description : string
}.

Record Flag : Type := mkFlag {
  flag_start : nat;
  flag_end : nat;
  flag_issue : Issue
}.

Record Report : Type := mkReport {
  report_name : string;
  report_flags : list Flag;
  report_summary : option string
}.

Definition new_report (name : string) : Report := mkReport name [] None.

Definition add_flag (r : Report) (f : Flag) : Report :=
  mkReport (report_name r) (report_flags r ++ [f]) (report_summary r).

Definition set_summary (r : Report) (s : string) : Report :=
  mkReport (report_name r) (report_flags r) (Some s).

(** Modelled from the spec: the [Document] class is not part of the sources
    at hand; a document owns its text and [text()] returns it, a raw string
    ([PyStr]). *)
Record Document : Type := mkDocument { doc_text : pytext }.

(** ** The lexical database

    [wn.synset(name).lemma_names()] hands out the list the database itself
    holds for that sense, so appending to the result changes what every later
    lookup of the sense sees.  The database is therefore state. *)
Definition Lexicon : Type := string -> list string.

(** [wn.synset(name).lemma_names().append(x)]. *)
Definition lex_append (lex : Lexicon) (name x : string) : Lexicon :=
  fun n => if String.eqb n name then lex n ++ [x] else lex n.

(** What a call of [get_report] can read and write. *)
Record World : Type := mkWorld {
  world_doc : Document;
  world_lexicon : Lexicon
}.

(** [str(synset)]. *)
Definition synset_str (name : string) : string := "Synset('" +++ name +++ "')".

(** [for m in re.finditer(regex, text): report.add_flag(Flag(m.span()[0], m.span()[1], issue))]
    for each regex of the list. *)
Definition flag_matches (regexes : list string) (text : pytext) (issue : Issue)
           (report : Report) : outcome Report :=
  for_each (fun rep regex =>
              spans <- Re.finditer regex text ;;
              Ok (fold_left (fun r sp => add_flag r (mkFlag (fst sp) (snd sp) issue))
                            spans rep))
           regexes report.

(** ** partsofspeech: the distancing-phrase detector *)

Module partsofspeech.
Section Detector.

(** [nltk.pos_tag]. *)
Variable pos_tag : list string -> list (string * string).

(** [tag[0] == 'V']. *)
Definition is_verb (tag : string) : outcome bool :=
  c <- str_first tag ;; Ok (Ascii.eqb c "V").

(** One round of the loop over [enumerate(word_pos)]. *)
Definition scan_body (word_pos word_pairs : list (string * string))
           (preposition_pairs : list string) (ci : Z * (string * string))
  : outcome (list string) :=
  let count := fst ci in
  let item := snd ci in
  v0 <- is_verb (snd item) ;;
  if v0 : bool then
    next <- py_getitem word_pos (count + 1) ;;
    v1 <- is_verb (snd next) ;;
    if v1 : bool then
      after <- py_getitem word_pos (count + 2) ;;
      if String.eqb (snd after) "IN" then
        p0 <- py_getitem word_pairs count ;;
        p1 <- py_getitem word_pairs count ;;
        Ok ((preposition_pairs ++ [fst p0]) ++ [snd p1])
      else Ok preposition_pairs
    else Ok preposition_pairs
  else Ok preposition_pairs.

Definition find_preposition_pairs (text : pytext) : outcome (list string) :=
  let word_pairs := bigrams (iter_text text) in
  let word_pos := pos_tag (iter_text text) in
  for_each (scan_body word_pos word_pairs) (enumerate word_pos) [].

(** One round of the loop that builds [_prep_pairs_regex]. *)
Definition regex_body (preposition_pairs : list string) (rx : string)
           (cp : Z * string) : outcome string :=
  let count := fst cp in
  let n := Z.of_nat (length preposition_pairs) in
  if (count <? n - 2)%Z then
    a <- py_getitem preposition_pairs count ;;
    b <- py_getitem preposition_pairs (count + 1) ;;
    Ok (rx +++ a +++ " " +++ b +++ "|")
  else if (count =? n - 2)%Z then
    a <- py_getitem preposition_pairs count ;;
    b <- py_getitem preposition_pairs (count + 1) ;;
    Ok (rx +++ a +++ " " +++ b +++ ")")
  else Ok rx.

Definition prep_pairs_regex (preposition_pairs : list string) : outcome string :=
  for_each (regex_body preposition_pairs) (enumerate preposition_pairs) "(?:".

Definition PART_OF_SPEECH_REGEXES (_prep_pairs_regex : string) : list string :=
  ["\s(\w+est[^\.]*" +++ _prep_pairs_regex +++ ")"].

Definition issue : Issue :=
  mkIssue "Part of Speech"
    "This phrase appears to distance the person from the position/action described.".

Definition get_report (w : World) : outcome Report * World :=
  let report := new_report "Parts of Speech" in
  let text := doc_text (world_doc w) in
  (preposition_pairs <- find_preposition_pairs text ;;
   _prep_pairs_regex <- prep_pairs_regex preposition_pairs ;;
   flag_matches (PART_OF_SPEECH_REGEXES _prep_pairs_regex) text issue report,
   w).

End Detector.
End partsofspeech.

(** ** raises_doubt: the doubt-raising phrase detector *)

Module raises_doubt.
Section Detector.

(** [wn.synset(name).hyponyms()], as the names of the senses returned. *)
Variable hyponyms : string -> list string.

Definition faint_praise_synsets : list string :=
  ["average.s.01"; "average.s.02"; "average.s.03"; "average.s.04"; "median.s.01";
   "lack.n.01"].

Definition irrelevancies_seed : list string :=
  ["church.n.03"; "religion.n.01"; "religious.s.01"; "wife.n.01"; "spouse.n.01";
   "husband.n.01"].

Definition irrelevancies_synsets : list string :=
  irrelevancies_seed
  ++ map (fun synset => slice_8_m2 (synset_str synset)) (hyponyms "religion.n.01").

(** [for x in text: if x in words: found.append(x)]. *)
Definition words_in_text (words lowercase_text : list string) : list string :=
  filter (fun x => py_in x words) lowercase_text.

(** [for x in text: for y in synsets: if x in lemma_names(y): if x != deny: found.append(x)]. *)
Definition senses_in_text (lex : Lexicon) (synsets : list string) (deny : string)
           (lowercase_text : list string) : list string :=
  flat_map (fun x =>
              flat_map (fun y =>
                          if py_in x (lex y) then
                            if negb (String.eqb x deny) then [x] else []
                          else [])
                       synsets)
           lowercase_text.

(** The hedge senses: every lemma of [look.v.02] gets a plural, and the
    plurals are appended to the list the database holds. *)
Definition add_hedged_plurals (lex : Lexicon) : Lexicon :=
  let hedged_words := lex "look.v.02" in
  let hedged_plurals := map (fun each => each +++ "s") hedged_words in
  fold_left (fun l a => lex_append l "look.v.02" a) hedged_plurals lex.

Definition neg_words_in_text (lex : Lexicon) (lowercase_text : list string) :=
  words_in_text (lex "not.r.01") lowercase_text.

Definition hedged_words_in_text (lex : Lexicon) (lowercase_text : list string) :=
  words_in_text (add_hedged_plurals lex "look.v.02") lowercase_text.

Definition faint_praise_in_text (lex : Lexicon) (lowercase_text : list string) :=
  senses_in_text (add_hedged_plurals lex) faint_praise_synsets "want" lowercase_text.

Definition irrelevancies_in_text (lex : Lexicon) (lowercase_text : list string) :=
  senses_in_text (add_hedged_plurals lex) irrelevancies_synsets "benedict"
                 lowercase_text.

(** The merged trigger list. *)
Definition doubt_raising_words (lex : Lexicon) (text : pytext) : list string :=
  let lowercase_text := map lower (iter_text text) in
  ((neg_words_in_text lex lowercase_text
    ++ hedged_words_in_text lex lowercase_text)
   ++ faint_praise_in_text lex lowercase_text)
  ++ irrelevancies_in_text lex lowercase_text.

(** One round of the loop that builds [_doubt_raisers_regex]; the second
    component is [_neg_words_regex], which the last round assigns. *)
Definition regex_body (words : list string) (st : string * option string)
           (cp : Z * string) : outcome (string * option string) :=
  let count := fst cp in
  let n := Z.of_nat (length words) in
  if (count <? n - 1)%Z then
    a <- py_getitem words count ;;
    Ok (fst st +++ a +++ "|", snd st)
  else if (count =? n - 1)%Z then
    a <- py_getitem words count ;;
    Ok (fst st, Some (fst st +++ a +++ ")"))
  else Ok st.

Definition doubt_raisers_regex (words : list string) : outcome string :=
  st <- for_each (regex_body words) (enumerate words) ("(?:", None) ;;
  Ok (fst st).

Definition DOUBT_RAISERS_REGEXES (_doubt_raisers_regex : string) : list string :=
  ["\s(\w+est[^\.]*" +++ _doubt_raisers_regex +++ ")"].

Definition issue : Issue :=
  mkIssue "Raises Doubt"
    ("This phrase appears to raise doubt, either through negative language, hedging, faint "
     +++ "praise, or irrelevant information. Consider revising to reduce doubt.").

Definition get_report (w : World) : outcome Report * World :=
  let report := new_report "Raises Doubt" in
  let text := doc_text (world_doc w) in
  let lex := world_lexicon w in
  (_doubt_raisers_regex <- doubt_raisers_regex (doubt_raising_words lex text) ;;
   flag_matches (DOUBT_RAISERS_REGEXES _doubt_raisers_regex) text issue report,
   mkWorld (world_doc w) (add_hedged_plurals lex)).

End Detector.
End raises_doubt.

(** ** superlatives: the superlative detector *)

Module superlatives.
Section Detector.

(** [nltk.pos_tag]. *)
Variable pos_tag : list string -> list (string * string).

Definition superlatives_synsets : list string :=
  ["better.s.03"; "estimable.s.02"; "adept.s.01"; "incredible.a.01"; "greatest.s.01";
   "great.s.02"; "excellent.s.01"; "phenomenal.s.02"; "fantastic.s.02"; "ace.s.01";
   "ever.r.01"; "most.r.01"].

(** The inner loop body: one sense for the word at index [count]. *)
Definition sense_body (lex : Lexicon) (word_pos : list (string * string))
           (count : Z) (word : string) (superlatives_in_text : list string)
           (synset : string) : outcome (list string) :=
  if py_in word (lex synset) then
    item <- py_getitem word_pos (count - 1) ;;
    if negb (String.eqb (snd item) "PRP$")
    then Ok (superlatives_in_text ++ [word])
    else Ok superlatives_in_text
  else Ok superlatives_in_text.

(** The outer loop body: all senses for the word at index [count]. *)
Definition word_body (lex : Lexicon) (word_pos : list (string * string))
           (superlatives_in_text : list string) (cw : Z * string)
  : outcome (list string) :=
  for_each (sense_body lex word_pos (fst cw) (snd cw)) superlatives_synsets
           superlatives_in_text.

Definition find_superlatives (lex : Lexicon) (text : pytext) : outcome (list string) :=
  let lowercase_text := map lower (iter_text text) in
  let word_pos := pos_tag (iter_text text) in
  for_each (word_body lex word_pos) (enumerate lowercase_text) [].

Definition no_superlatives_summary : string :=
  "This document contains few or no superlatives "
  +++ "(best, most, greatest, etc) that could increase the strength "
  +++ "of the letter. Consider adding superlatives as appropriate.".

Definition superlatives_summary_prefix : string :=
  "This document contains superlatives that likely increase "
  +++ "the strength of the letter, including ".

(** One round of the loop that joins three or more words. *)
Definition join_body (n : Z) (s : string) (cw : Z * string) : string :=
  if (fst cw <? n - 1)%Z then s +++ snd cw +++ ", "
  else s +++ "and " +++ snd cw.

Definition superlatives_in_text_string (superlatives_in_text : list string) : string :=
  match superlatives_in_text with
  | [w] => w
  | [w0; w1] => w0 +++ " and " +++ w1
  | _ => fold_left (join_body (Z.of_nat (length superlatives_in_text)))
                   (enumerate superlatives_in_text) ""
  end.

Definition summary (superlatives_in_text : list string) : string :=
  if length superlatives_in_text =? 0 then no_superlatives_summary
  else superlatives_summary_prefix
       +++ superlatives_in_text_string superlatives_in_text +++ ".".

Definition get_report (w : World) : outcome Report * World :=
  let report := new_report "Raises Doubt" in
  let text := doc_text (world_doc w) in
  (superlatives_in_text <- find_superlatives (world_lexicon w) text ;;
   Ok (set_summary report (summary superlatives_in_text)),
   w).

End Detector.
End superlatives.

(** ** Notions used to state the properties *)

(** The flags a run hands to its caller: those of the report it returns. *)
Definition produced_flags (o : outcome Report) : list Flag :=
  match o with
  | Ok r => report_flags r
  | _ => []
  end.

(** A word none of whose characters means anything to [re]. *)
Definition plain_char (c : ascii) : bool := negb (Re.is_special c).

Fixpoint plain_word (w : string) : bool :=
  match w with
  | EmptyString => true
  | String c w' => plain_char c && plain_word w'
  end.

(** ["a b|b c|c d)"]: every entry joined to its successor. *)
Fixpoint windows (l : list string) : string :=
  match l with
  | a :: ((b :: t) as l') =>
      a +++ " " +++ b +++ (match t with [] => ")" | _ => "|" end) +++ windows l'
  | _ => ""
  end.

(** ["a|b|c|"]. *)
Fixpoint bars (l : list string) : string :=
  match l with
  | [] => ""
  | a :: l' => a +++ "|" +++ bars l'
  end.

(** ["a, b, c, "]. *)
Fixpoint commas (l : list string) : string :=
  match l with
  | [] => ""
  | a :: l' => a +++ ", " +++ commas l'
  end.

(** In how many of the superlative senses a word is a lemma. *)
Definition sense_count (lex : Lexicon) (word : string) : nat :=
  length (filter (fun synset => py_in word (lex synset))
                 superlatives.superlatives_synsets).

(** What the superlative scan appends at one index. *)
Definition hits (lex : Lexicon) (word_pos : list (string * string))
           (cw : Z * string) : list string :=
  match sense_count lex (snd cw) with
  | O => []
  | S _ =>
      match py_getitem word_pos (fst cw - 1) with
      | Ok item =>
          if String.eqb (snd item) "PRP$" then []
          else repeat (snd cw) (sense_count lex (snd cw))
      | _ => []
      end
  end.

(** The senses the doubt detector looks up. *)
Definition doubt_senses (hyponyms : string -> list string) : list string :=
  ["not.r.01"; "look.v.02"] ++ raises_doubt.faint_praise_synsets
  ++ raises_doubt.irrelevancies_synsets hyponyms.

(** Every lemma of those senses is a plain word. *)
Definition plain_lexicon (hyponyms : string -> list string) (lex : Lexicon) : bool :=
  forallb (fun name => forallb plain_word (lex name)) (doubt_senses hyponyms).


(** The fixed head of both span patterns, and the parser after reading it:
    inside the non-capturing group, inside group 1. *)
Definition pattern_head : string := "\s(\w+est[^\.]*(?:".

Definition after_head : Re.pstate :=
  Eval vm_compute in
    match Re.run pattern_head Re.init with
    | Re.POk st => st
    | _ => Re.init
    end.



(** A matcher that hands its continuation no more than it was given. *)
Definition bounded (m : list ascii -> Re.cont -> option (list ascii)) : Prop :=
  forall s k t, m s k = Some t ->
                exists s', length s' <= length s /\ k s' = Some t.


(** Whether [doc.text()] is a string, as the document contract says. *)
Definition is_str (t : pytext) : bool :=
  match t with
  | PyStr _ => true
  | PyList _ => false
  end.

(** ** A small toolkit to run the detectors on *)

Module Sample.

(** A tagger that tags every token on its own. *)
Definition tag_of (t : string) : string :=
  if String.eqb t "she" then "PRP"
  else if String.eqb t "her" then "PRP$"
  else if String.eqb t "did" then "VBD"
  else if String.eqb t "was" then "VBD"
  else if String.eqb t "is" then "VBZ"
  else if String.eqb t "the" then "DT"
  else if String.eqb t "best" then "JJS"
  else if String.eqb t "of" then "IN"
  else if String.eqb t "d" then "VBD"
  else if String.eqb t "o" then "VB"
  else if String.eqb t "," then "IN"
  else "NN".

Definition tagger (tokens : list string) : list (string * string) :=
  map (fun t => (t, tag_of t)) tokens.

Definition lexicon : Lexicon :=
  fun name =>
    if String.eqb name "better.s.03" then ["better"; "best"]
    else if String.eqb name "greatest.s.01" then ["greatest"; "sterling"; "superlative"]
    else if String.eqb name "most.r.01" then ["most"; "to_the_highest_degree"]
    else if String.eqb name "not.r.01" then ["not"; "non"; "n't"]
    else if String.eqb name "look.v.02" then ["look"; "appear"; "seem"]
    else if String.eqb name "lack.n.01" then ["lack"; "deficiency"; "want"]
    else if String.eqb name "benedict.n.01" then ["Benedict"; "benedict"]
    else if String.eqb name "wife.n.01" then ["wife"; "married_woman"]
    else [].

Definition hyponyms (name : string) : list string :=
  if String.eqb name "religion.n.01" then ["christianity.n.01"; "benedict.n.01"]
  else [].

Definition world (text : pytext) : World :=
  mkWorld (mkDocument text) lexicon.

End Sample.

(** ** Notions for the scans as a whole *)

(** A tag that begins with V. *)
Definition verb_tag (tag : string) : bool :=
  match tag with
  | EmptyString => false
  | String c _ => Ascii.eqb c "V"
  end.

(** The trigger list read off the tagged sequence itself: the two tokens at
    every place where two verb tags are followed by IN. *)
Fixpoint distancing_pairs (word_pos : list (string * string)) : list string :=
  match word_pos with
  | p0 :: ((p1 :: p2 :: _) as rest) =>
      (if verb_tag (snd p0) && verb_tag (snd p1) && String.eqb (snd p2) "IN"
       then [fst p0; fst p1] else [])
      ++ distancing_pairs rest
  | _ => []
  end.

(** In how many of the given senses a word is a lemma. *)
Definition senses_with (lex : Lexicon) (synsets : list string) (x : string) : nat :=
  length (filter (fun y => py_in x (lex y)) synsets).

(** [n] calls of the doubt detector, one after the other. *)
Fixpoint doubt_calls (hyponyms : string -> list string) (n : nat) (w : World) : World :=
  match n with
  | O => w
  | S n' => snd (raises_doubt.get_report hyponyms (doubt_calls hyponyms n' w))
  end.

(** Spans listed from left to right, none reaching into the next. *)
Fixpoint spans_in_order (l : list (nat * nat)) : Prop :=
  match l with
  | [] => True
  | p :: l' => Forall (fun q => snd p <= fst q) l' /\ spans_in_order l'
  end.

(** No tag of the sequence is the empty string. *)
Definition tags_nonempty (word_pos : list (string * string)) : bool :=
  forallb (fun p => negb (String.eqb (snd p) "")) word_pos.

(** No lemma of a superlative sense is a single character. *)
Definition no_single_char_lemma (lex : Lexicon) : bool :=
  forallb (fun synset => forallb (fun l => negb (String.length l =? 1)) (lex synset))
          superlatives.superlatives_synsets.

(** A toolkit in which a one-character word is a superlative lemma and the
    character "s" is tagged as a possessive. *)
Module Short.

Definition lexicon : Lexicon :=
  fun name => if String.eqb name "ace.s.01" then ["ace"; "a"] else [].

Definition tagger (tokens : list string) : list (string * string) :=
  map (fun t => (t, if String.eqb t "s" then "PRP$" else "NN")) tokens.

End Short.

(** A lexical database in which "good" is a lemma of two superlative senses. *)
Module Demo.

Definition lexicon : Lexicon :=
  fun name =>
    if String.eqb name "estimable.s.02" then ["estimable"; "good"; "honorable"; "respectable"]
    else if String.eqb name "adept.s.01" then ["adept"; "expert"; "good"; "practiced"]
    else if String.eqb name "average.s.01" then ["average"; "mean"]
    else if String.eqb name "median.s.01" then ["median"; "average"]
    else if String.eqb name "look.v.02" then ["look"; "appear"; "seem"]
    else [].

End Demo.

(** ** Generic facts *)

Lemma append_assoc (a b c : string) : (a +++ b) +++ c = a +++ b +++ c.
Proof. induction a as [|x a IH]; simpl; [reflexivity | now rewrite IH]. Qed.

Lemma append_empty_r (a : string) : a +++ "" = a.
Proof. induction a as [|x a IH]; simpl; [reflexivity | now rewrite IH]. Qed.

Lemma py_in_In (x : string) (l : list string) : py_in x l = true <-> In x l.
Proof.
  unfold py_in. rewrite existsb_exists. split.
  - intros [y [Hy Heq]]. apply String.eqb_eq in Heq. now subst.
  - intros H. exists x. split; [assumption | apply String.eqb_refl].
Qed.

Lemma py_getitem_nonneg {A : Type} (l : list A) (i : nat) (x : A) :
  nth_error l i = Some x -> py_getitem l (Z.of_nat i) = Ok x.
Proof.
  intros H. unfold py_getitem.
  assert (Hlt : i < length l) by (apply nth_error_Some; congruence).
  destruct (Z.of_nat i <? 0)%Z eqn:E; [apply Z.ltb_lt in E; lia|].
  replace ((0 <=? Z.of_nat i) && (Z.of_nat i <? Z.of_nat (length l)))%Z with true.
  - now rewrite Nat2Z.id, H.
  - symmetry. apply andb_true_intro. split; [apply Z.leb_le | apply Z.ltb_lt]; lia.
Qed.

Lemma py_getitem_past_end {A : Type} (l : list A) (i : Z) :
  (Z.of_nat (length l) <= i)%Z -> py_getitem l i = Raise IndexError.
Proof.
  intros H. unfold py_getitem.
  destruct (i <? 0)%Z eqn:E; [apply Z.ltb_lt in E; lia|].
  replace (i <? Z.of_nat (length l))%Z with false
    by (symmetry; apply Z.ltb_ge; lia).
  now rewrite andb_false_r.
Qed.

(** [l[-1]] is the last element. *)
Lemma py_getitem_minus_one {A : Type} (l : list A) (x : A) :
  py_getitem (l ++ [x]) (-1) = Ok x.
Proof.
  unfold py_getitem. rewrite length_app. simpl length.
  replace (-1 <? 0)%Z with true by reflexivity.
  replace (-1 + Z.of_nat (length l + 1))%Z with (Z.of_nat (length l)) by lia.
  replace ((0 <=? Z.of_nat (length l)) && (Z.of_nat (length l) <? Z.of_nat (length l + 1)))%Z
    with true.
  - rewrite Nat2Z.id, nth_error_app2, Nat.sub_diag by lia. reflexivity.
  - symmetry. apply andb_true_intro. split; [apply Z.leb_le | apply Z.ltb_lt]; lia.
Qed.

(** Any index from [-len] up to [len - 1] is served. *)
Lemma py_getitem_in_range {A : Type} (l : list A) (i : Z) :
  (- Z.of_nat (length l) <= i < Z.of_nat (length l))%Z ->
  exists x, py_getitem l i = Ok x.
Proof.
  intros H. unfold py_getitem.
  set (j := (if (i <? 0)%Z then (i + Z.of_nat (length l))%Z else i)).
  assert (Hj : (0 <= j < Z.of_nat (length l))%Z).
  { unfold j. destruct (i <? 0)%Z eqn:E;
      [apply Z.ltb_lt in E | apply Z.ltb_ge in E]; lia. }
  replace ((0 <=? j) && (j <? Z.of_nat (length l)))%Z with true
    by (symmetry; apply andb_true_intro; split; [apply Z.leb_le | apply Z.ltb_lt]; lia).
  destruct (nth_error l (Z.to_nat j)) as [x|] eqn:E.
  - now exists x.
  - apply nth_error_None in E. lia.
Qed.

(** A loop whose body only appends is a [flat_map]. *)
Lemma for_each_appends {A B : Type} (body : list B -> A -> outcome (list B))
      (g : A -> list B) (l : list A) :
  (forall acc x, In x l -> body acc x = Ok (acc ++ g x)) ->
  forall acc, for_each body l acc = Ok (acc ++ flat_map g l).
Proof.
  induction l as [|x l IH]; intros Hb acc; simpl.
  - now rewrite app_nil_r.
  - rewrite Hb by now left. simpl.
    rewrite IH by (intros; apply Hb; now right).
    now rewrite app_assoc.
Qed.

Lemma enumerate_from_length {A : Type} (l : list A) (n : Z) :
  length (enumerate_from n l) = length l.
Proof. revert n; induction l as [|x l IH]; intros n; simpl; [reflexivity | now rewrite IH]. Qed.

Lemma enumerate_from_range {A : Type} (l : list A) (n i : Z) (x : A) :
  In (i, x) (enumerate_from n l) -> (n <= i < n + Z.of_nat (length l))%Z.
Proof.
  revert n; induction l as [|y l IH]; intros n H; simpl in *; [contradiction|].
  destruct H as [H|H].
  - inversion H; subst. lia.
  - apply IH in H. lia.
Qed.

(** ** The superlative scan *)

Section SuperlativeScan.

Variable lex : Lexicon.
Variable word_pos : list (string * string).

Let matching (word : string) (syns : list string) : nat :=
  length (filter (fun synset => py_in word (lex synset)) syns).

Lemma sense_loop_no_match (count : Z) (word : string) (syns acc : list string) :
  matching word syns = 0 ->
  for_each (superlatives.sense_body lex word_pos count word) syns acc = Ok acc.
Proof.
  unfold matching. revert acc. induction syns as [|y syns IH]; intros acc H; simpl.
  - reflexivity.
  - simpl in H. unfold superlatives.sense_body at 1.
    destruct (py_in word (lex y)); simpl in *; [discriminate | now apply IH].
Qed.

Lemma sense_loop_item (count : Z) (word : string) (item : string * string)
      (syns acc : list string) :
  py_getitem word_pos (count - 1) = Ok item ->
  for_each (superlatives.sense_body lex word_pos count word) syns acc
  = Ok (acc ++ if String.eqb (snd item) "PRP$" then []
               else repeat word (matching word syns)).
Proof.
  intros Hitem. unfold matching. revert acc.
  induction syns as [|y syns IH]; intros acc; simpl.
  - destruct (String.eqb (snd item) "PRP$"); now rewrite app_nil_r.
  - unfold superlatives.sense_body at 1.
    destruct (py_in word (lex y)); simpl.
    + rewrite Hitem. simpl.
      destruct (String.eqb (snd item) "PRP$") eqn:E; simpl.
      * rewrite IH. reflexivity.
      * rewrite IH, <- app_assoc. reflexivity.
    + apply IH.
Qed.

(** One index of the scan, given that [word_pos[count - 1]] can be read. *)
Lemma word_body_hits (acc : list string) (cw : Z * string) :
  (exists item, py_getitem word_pos (fst cw - 1) = Ok item) ->
  superlatives.word_body lex word_pos acc cw = Ok (acc ++ hits lex word_pos cw).
Proof.
  intros [item Hitem]. unfold superlatives.word_body, hits.
  destruct (sense_count lex (snd cw)) as [|k] eqn:Hk.
  - rewrite sense_loop_no_match by exact Hk. now rewrite app_nil_r.
  - rewrite (sense_loop_item _ _ item) by exact Hitem.
    rewrite Hitem. unfold matching. fold (sense_count lex (snd cw)).
    now rewrite Hk.
Qed.

(** At index 0 the tag read is the one of the last entry. *)
Lemma word_body_first (acc : list string) (word : string)
      (init : list (string * string)) (last_token : string) :
  word_pos = init ++ [(last_token, "PRP$")] ->
  superlatives.word_body lex word_pos acc (0%Z, word) = Ok acc.
Proof.
  intros Hlast.
  rewrite word_body_hits.
  - unfold hits. simpl fst. simpl snd.
    destruct (sense_count lex word); [now rewrite app_nil_r|].
    change (0 - 1)%Z with (-1)%Z. rewrite Hlast, py_getitem_minus_one.
    simpl. now rewrite app_nil_r.
  - simpl fst. change (0 - 1)%Z with (-1)%Z. rewrite Hlast, py_getitem_minus_one.
    now eexists.
Qed.

(** The whole scan, for a tagged sequence as long as the token sequence. *)
Lemma scan_hits (words : list string) :
  length word_pos = length words ->
  for_each (superlatives.word_body lex word_pos) (enumerate words) []
  = Ok (flat_map (hits lex word_pos) (enumerate words)).
Proof.
  intros Hlen.
  rewrite (for_each_appends _ (hits lex word_pos)); [reflexivity|].
  intros acc [i word] Hin. apply word_body_hits. simpl fst.
  apply enumerate_from_range in Hin.
  apply py_getitem_in_range. lia.
Qed.

End SuperlativeScan.

Lemma find_superlatives_hits (pos_tag : list string -> list (string * string))
      (lex : Lexicon) (text : pytext) :
  length (pos_tag (iter_text text)) = length (iter_text text) ->
  superlatives.find_superlatives pos_tag lex text
  = Ok (flat_map (hits lex (pos_tag (iter_text text)))
                 (enumerate (map lower (iter_text text)))).
Proof.
  intros Hlen. unfold superlatives.find_superlatives.
  apply scan_hits. now rewrite length_map.
Qed.

(** ** The summary of the superlative detector *)

Lemma enumerate_from_app {A : Type} (l l' : list A) (n : Z) :
  enumerate_from n (l ++ l')
  = enumerate_from n l ++ enumerate_from (n + Z.of_nat (length l)) l'.
Proof.
  revert n; induction l as [|x l IH]; intros n; cbn [app enumerate_from length].
  - now rewrite Z.add_0_r.
  - rewrite IH.
    replace (n + 1 + Z.of_nat (length l))%Z with (n + Z.of_nat (S (length l)))%Z by lia.
    reflexivity.
Qed.

(** While the index stays below [n - 1] the loop writes [word, ] each round. *)
Lemma join_loop_commas (n : Z) (l : list string) (i : Z) (s : string) :
  (i + Z.of_nat (length l) <= n - 1)%Z ->
  fold_left (superlatives.join_body n) (enumerate_from i l) s = s +++ commas l.
Proof.
  revert i s; induction l as [|x l IH]; intros i s H;
    cbn [enumerate_from fold_left commas].
  - now rewrite append_empty_r.
  - cbn [length] in H. rewrite IH by lia.
    unfold superlatives.join_body. simpl fst. simpl snd.
    replace (i <? n - 1)%Z with true by (symmetry; apply Z.ltb_lt; lia).
    now rewrite !append_assoc.
Qed.

Lemma join_three_or_more (l : list string) (w : string) :
  fold_left (superlatives.join_body (Z.of_nat (length (l ++ [w]))))
            (enumerate (l ++ [w])) ""
  = commas l +++ "and " +++ w.
Proof.
  unfold enumerate. rewrite enumerate_from_app, fold_left_app.
  rewrite length_app. cbn [length].
  rewrite (join_loop_commas _ l) by lia. cbn [enumerate_from fold_left append].
  unfold superlatives.join_body. simpl fst. simpl snd.
  replace (Z.of_nat (length l) <? Z.of_nat (length l + 1) - 1)%Z with false
    by (symmetry; apply Z.ltb_ge; lia).
  reflexivity.
Qed.

(** The summary string depends on how many
    superlatives were found: none gives the fixed prompt to add some; one
    gives "...including <word>."; two are joined by " and "; three or more
    are listed with a comma after each but the last, which follows "and ".
    So ["best"; "greatest"] ends in "best and greatest." and
    ["best"; "greatest"; "top"] in "best, greatest, and top.". *)
Theorem summary_by_count :
  superlatives.summary []
  = "This document contains few or no superlatives (best, most, greatest, etc) that could increase the strength of the letter. Consider adding superlatives as appropriate."
  /\ superlatives.superlatives_summary_prefix
     = "This document contains superlatives that likely increase the strength of the letter, including "
  /\ (forall w,
         superlatives.summary [w]
         = superlatives.superlatives_summary_prefix +++ w +++ ".")
  /\ (forall w0 w1,
         superlatives.summary [w0; w1]
         = superlatives.superlatives_summary_prefix +++ w0 +++ " and " +++ w1 +++ ".")
  /\ (forall w0 w1 l w,
         superlatives.summary (w0 :: w1 :: l ++ [w])
         = superlatives.superlatives_summary_prefix
           +++ commas (w0 :: w1 :: l) +++ "and " +++ w +++ ".")
  /\ superlatives.summary ["best"; "greatest"]
     = superlatives.superlatives_summary_prefix +++ "best and greatest."
  /\ superlatives.summary ["best"; "greatest"; "top"]
     = superlatives.superlatives_summary_prefix +++ "best, greatest, and top.".
Proof.
  split; [reflexivity|].
  split; [reflexivity|].
  split; [intros; reflexivity|].
  split.
  { intros w0 w1. unfold superlatives.summary, superlatives.superlatives_in_text_string.
    cbn [length Nat.eqb]. now rewrite !append_assoc. }
  split; [|split; reflexivity].
  intros w0 w1 l w. unfold superlatives.summary.
  change (length (w0 :: w1 :: l ++ [w]) =? 0) with false. cbv iota.
  f_equal.
  assert (Hs : superlatives.superlatives_in_text_string (w0 :: w1 :: l ++ [w])
               = commas (w0 :: w1 :: l) +++ "and " +++ w).
  { change (w0 :: w1 :: l ++ [w]) with ((w0 :: w1 :: l) ++ [w]).
    rewrite <- join_three_or_more.
    change ((w0 :: w1 :: l) ++ [w]) with (w0 :: w1 :: l ++ [w]).
    unfold superlatives.superlatives_in_text_string.
    destruct l; reflexivity. }
  rewrite Hs. now rewrite !append_assoc.
Qed.

(** ** What the superlative detector reports *)

(** C10: the report the superlative detector returns is labelled
    "Raises Doubt", the label of the doubt detector, and has no flag in it: a
    summary is all it carries; and it does return one on every document that
    is tagged token for token. *)
Theorem superlative_report_is_summary_only
        (pos_tag : list string -> list (string * string)) (w : World) :
  (forall r, fst (superlatives.get_report pos_tag w) = Ok r ->
             exists s, r = mkReport "Raises Doubt" [] (Some s))
  /\ (length (pos_tag (iter_text (doc_text (world_doc w))))
      = length (iter_text (doc_text (world_doc w))) ->
      exists r, fst (superlatives.get_report pos_tag w) = Ok r).
Proof.
  split.
  - intros r H. unfold superlatives.get_report in H. cbn [fst] in H.
    destruct (superlatives.find_superlatives pos_tag (world_lexicon w)
                                             (doc_text (world_doc w)));
      [|discriminate|discriminate].
    cbn in H. injection H as <-. now eexists.
  - intros Hlen. unfold superlatives.get_report. cbn [fst].
    rewrite find_superlatives_hits by exact Hlen. cbn [bind]. now eexists.
Qed.

Lemma superlative_report_is_summary_only_witness :
  (exists s, mkReport "Raises Doubt" []
               (Some (superlatives.superlatives_summary_prefix +++ "best."))
             = mkReport "Raises Doubt" [] (Some s))
  /\ exists r, fst (superlatives.get_report Sample.tagger
                      (Sample.world (PyList ["she"; "is"; "the"; "best"]))) = Ok r.
Proof.
  destruct (superlative_report_is_summary_only Sample.tagger
              (Sample.world (PyList ["she"; "is"; "the"; "best"]))) as [Hshape Hreturns].
  split; [apply Hshape | apply Hreturns]; reflexivity.
Defined.

(** On a sequence of word tokens the scan does what its docstring says.  At
    an index with a predecessor, a word that is a lemma of some
    superlative sense is appended exactly when the tag of the token before it
    is not PRP$.  For she/did/her/best tagged PRP, VBD, PRP$, JJS nothing is
    found and the summary is the prompt to add superlatives; for
    she/is/the/best tagged PRP, VBZ, DT, JJS the found list is ["best"] and
    the summary ends in "including best.". *)
Theorem possessive_exclusion
        (pos_tag : list string -> list (string * string)) (lex : Lexicon) :
  (forall word_pos count word acc prev,
      (1 <= count)%Z ->
      nth_error word_pos (Z.to_nat (count - 1)) = Some prev ->
      1 <= sense_count lex word ->
      exists appended,
        superlatives.word_body lex word_pos acc (count, word) = Ok (acc ++ appended)
        /\ (In word appended <-> snd prev <> "PRP$"))
  /\ (pos_tag ["she"; "did"; "her"; "best"]
      = [("she", "PRP"); ("did", "VBD"); ("her", "PRP$"); ("best", "JJS")] ->
      sense_count lex "she" = 0 -> sense_count lex "did" = 0 ->
      sense_count lex "her" = 0 -> 1 <= sense_count lex "best" ->
      superlatives.find_superlatives pos_tag lex (PyList ["she"; "did"; "her"; "best"])
      = Ok []
      /\ fst (superlatives.get_report pos_tag
                (mkWorld (mkDocument (PyList ["she"; "did"; "her"; "best"])) lex))
         = Ok (mkReport "Raises Doubt" [] (Some superlatives.no_superlatives_summary)))
  /\ (pos_tag ["she"; "is"; "the"; "best"]
      = [("she", "PRP"); ("is", "VBZ"); ("the", "DT"); ("best", "JJS")] ->
      sense_count lex "she" = 0 -> sense_count lex "is" = 0 ->
      sense_count lex "the" = 0 -> sense_count lex "best" = 1 ->
      superlatives.find_superlatives pos_tag lex (PyList ["she"; "is"; "the"; "best"])
      = Ok ["best"]
      /\ fst (superlatives.get_report pos_tag
                (mkWorld (mkDocument (PyList ["she"; "is"; "the"; "best"])) lex))
         = Ok (mkReport "Raises Doubt" []
                 (Some (superlatives.superlatives_summary_prefix +++ "best.")))).
Proof.
  split; [|split].
  - intros word_pos count word acc prev Hcount Hprev Hsense.
    assert (Hitem : py_getitem word_pos (count - 1) = Ok prev).
    { rewrite <- (Z2Nat.id (count - 1)) by lia. now apply py_getitem_nonneg. }
    exists (hits lex word_pos (count, word)). split.
    + apply word_body_hits. now exists prev.
    + unfold hits. simpl fst. simpl snd. rewrite Hitem.
      destruct (sense_count lex word) as [|k] eqn:Hk; [lia|].
      destruct (String.eqb (snd prev) "PRP$") eqn:E.
      * apply String.eqb_eq in E. split; [contradiction | congruence].
      * apply String.eqb_neq in E. split; [now intros _ | intros _; now left].
  - intros Htag Hshe Hdid Hher Hbest.
    assert (Hfound : superlatives.find_superlatives pos_tag lex
                       (PyList ["she"; "did"; "her"; "best"]) = Ok []).
    { rewrite find_superlatives_hits by (simpl iter_text; now rewrite Htag).
      simpl iter_text. rewrite Htag.
      change (map lower ["she"; "did"; "her"; "best"])
        with ["she"; "did"; "her"; "best"].
      unfold enumerate, hits. cbn [enumerate_from flat_map fst snd].
      rewrite Hshe, Hdid, Hher.
      destruct (sense_count lex "best"); [lia|]. reflexivity. }
    split; [exact Hfound|].
    unfold superlatives.get_report. cbn [fst world_doc doc_text world_lexicon].
    now rewrite Hfound.
  - intros Htag Hshe His Hthe Hbest.
    assert (Hfound : superlatives.find_superlatives pos_tag lex
                       (PyList ["she"; "is"; "the"; "best"]) = Ok ["best"]).
    { rewrite find_superlatives_hits by (simpl iter_text; now rewrite Htag).
      simpl iter_text. rewrite Htag.
      change (map lower ["she"; "is"; "the"; "best"])
        with ["she"; "is"; "the"; "best"].
      unfold enumerate, hits. cbn [enumerate_from flat_map fst snd].
      rewrite Hshe, His, Hthe, Hbest. reflexivity. }
    split; [exact Hfound|].
    unfold superlatives.get_report. cbn [fst world_doc doc_text world_lexicon].
    now rewrite Hfound.
Qed.

Lemma possessive_exclusion_witness :
  (superlatives.find_superlatives Sample.tagger Sample.lexicon
     (PyList ["she"; "did"; "her"; "best"]) = Ok []
   /\ fst (superlatives.get_report Sample.tagger
             (mkWorld (mkDocument (PyList ["she"; "did"; "her"; "best"])) Sample.lexicon))
      = Ok (mkReport "Raises Doubt" [] (Some superlatives.no_superlatives_summary)))
  /\ (superlatives.find_superlatives Sample.tagger Sample.lexicon
        (PyList ["she"; "is"; "the"; "best"]) = Ok ["best"]
      /\ fst (superlatives.get_report Sample.tagger
                (mkWorld (mkDocument (PyList ["she"; "is"; "the"; "best"])) Sample.lexicon))
         = Ok (mkReport "Raises Doubt" []
                 (Some (superlatives.superlatives_summary_prefix +++ "best."))))
  /\ exists appended,
      superlatives.word_body Sample.lexicon
        (Sample.tagger ["she"; "did"; "her"; "best"]) [] (3%Z, "best")
      = Ok ([] ++ appended)
      /\ (In "best" appended <-> "PRP$" <> "PRP$").
Proof.
  destruct (possessive_exclusion Sample.tagger Sample.lexicon) as [Hrule [Hher Hthe]].
  split; [|split].
  - apply Hher; [reflexivity | reflexivity | reflexivity | reflexivity | vm_compute; lia].
  - apply Hthe; reflexivity.
  - apply (Hrule _ 3%Z "best" [] ("her", "PRP$")); [lia | reflexivity | vm_compute; lia].
Defined.

(** On a sequence of word tokens: the first token has no predecessor, yet the scan reads
    [word_pos[0 - 1]], the entry of the last token: when that one is tagged
    PRP$ nothing is appended at index 0, whatever the first word is.  In
    best/of/her tagged JJS, IN, PRP$ the superlative "best" is dropped and the
    summary is the prompt to add superlatives. *)
Theorem first_token_checked_against_last :
  (forall lex init last_token word acc,
      superlatives.word_body lex (init ++ [(last_token, "PRP$")]) acc (0%Z, word)
      = Ok acc)
  /\ sense_count Sample.lexicon "best" = 1
  /\ Sample.tagger ["best"; "of"; "her"]
     = [("best", "JJS"); ("of", "IN"); ("her", "PRP$")]
  /\ superlatives.get_report Sample.tagger (Sample.world (PyList ["best"; "of"; "her"]))
     = (Ok (mkReport "Raises Doubt" [] (Some superlatives.no_superlatives_summary)),
        Sample.world (PyList ["best"; "of"; "her"])).
Proof.
  split; [|split; [|split]]; try reflexivity.
  intros lex init last_token word acc.
  now apply (word_body_first lex _ acc word init last_token).
Qed.

(** ** The distancing detector: scan and pattern *)

Lemma py_getitem_outcome {A : Type} (l : list A) (i : Z) :
  (exists x, py_getitem l i = Ok x) \/ py_getitem l i = Raise IndexError.
Proof.
  unfold py_getitem.
  destruct ((0 <=? _) && _)%Z; [|now right].
  destruct (nth_error l _); [left; now eexists | now right].
Qed.

Lemma is_verb_outcome (tag : string) :
  (exists b, partsofspeech.is_verb tag = Ok b)
  \/ partsofspeech.is_verb tag = Raise IndexError.
Proof. destruct tag; [now right | left; now eexists]. Qed.

(** A round of the scan returns or raises IndexError, nothing else. *)
Lemma scan_body_outcome (word_pos word_pairs : list (string * string))
      (acc : list string) (ci : Z * (string * string)) :
  (exists acc', partsofspeech.scan_body word_pos word_pairs acc ci = Ok acc')
  \/ partsofspeech.scan_body word_pos word_pairs acc ci = Raise IndexError.
Proof.
  unfold partsofspeech.scan_body.
  destruct (is_verb_outcome (snd (snd ci))) as [[b0 ->] | ->]; [|now right].
  simpl. destruct b0; [|left; now eexists].
  destruct (py_getitem_outcome word_pos (fst ci + 1)) as [[next ->] | ->]; [|now right].
  simpl. destruct (is_verb_outcome (snd next)) as [[b1 ->] | ->]; [|now right].
  simpl. destruct b1; [|left; now eexists].
  destruct (py_getitem_outcome word_pos (fst ci + 2)) as [[after ->] | ->]; [|now right].
  simpl. destruct (String.eqb (snd after) "IN"); [|left; now eexists].
  destruct (py_getitem_outcome word_pairs (fst ci)) as [[p ->] | ->]; [|now right].
  simpl. left; now eexists.
Qed.

(** A verb in the last position makes the scan read one past the end. *)
Lemma scan_body_verb_at_end (word_pos word_pairs : list (string * string))
      (acc : list string) (token rest : string) :
  partsofspeech.scan_body word_pos word_pairs acc
    ((Z.of_nat (length word_pos) - 1)%Z, (token, String "V" rest))
  = Raise IndexError.
Proof.
  unfold partsofspeech.scan_body. simpl.
  rewrite py_getitem_past_end by lia. reflexivity.
Qed.

Lemma scan_raises_at_end (word_pos word_pairs : list (string * string))
      (l : list (Z * (string * string))) (token rest : string) (acc : list string) :
  for_each (partsofspeech.scan_body word_pos word_pairs)
           (l ++ [((Z.of_nat (length word_pos) - 1)%Z, (token, String "V" rest))]) acc
  = Raise IndexError.
Proof.
  revert acc. induction l as [|ci l IH]; intros acc.
  - cbn [app for_each]. now rewrite scan_body_verb_at_end.
  - cbn [app for_each].
    destruct (scan_body_outcome word_pos word_pairs acc ci) as [[acc' ->] | ->];
      [apply IH | reflexivity].
Qed.

(** C2: the scan of the distancing detector reads [word_pos[count + 1]] and
    [word_pos[count + 2]] without a bounds check: whenever the last token is
    tagged as a verb it indexes past the end, and [get_report] raises
    IndexError instead of stopping. *)
Theorem verb_at_end_raises
        (pos_tag : list string -> list (string * string)) (w : World)
        (init : list (string * string)) (token rest : string) :
  pos_tag (iter_text (doc_text (world_doc w))) = init ++ [(token, String "V" rest)] ->
  partsofspeech.get_report pos_tag w = (Raise IndexError, w).
Proof.
  intros Htag. unfold partsofspeech.get_report, partsofspeech.find_preposition_pairs.
  rewrite Htag. unfold enumerate. rewrite enumerate_from_app.
  cbn [enumerate_from].
  replace (0 + Z.of_nat (length init))%Z
    with (Z.of_nat (length (init ++ [(token, String "V" rest)])) - 1)%Z
    by (rewrite length_app; cbn [length]; lia).
  rewrite scan_raises_at_end. reflexivity.
Qed.

Lemma verb_at_end_raises_witness :
  Sample.tagger ["she"; "was"] = [("she", "PRP")] ++ [("was", "VBD")]
  /\ partsofspeech.get_report Sample.tagger (Sample.world (PyList ["she"; "was"]))
     = (Raise IndexError, Sample.world (PyList ["she"; "was"])).
Proof.
  split; [reflexivity|].
  apply (verb_at_end_raises Sample.tagger _ [("she", "PRP")] "was" "BD").
  reflexivity.
Defined.

(** Settle the first index test of the goal by arithmetic. *)
Ltac decide_index :=
  match goal with
  | |- context [(?x <? ?y)%Z] =>
      destruct (Z.ltb_spec x y); [try lia | try lia]
  | |- context [(?x =? ?y)%Z] =>
      destruct (Z.eqb_spec x y); [try lia | try lia]
  end.

(** The pattern loop joins every entry to its successor. *)
Lemma regex_loop_windows (rest pre : list string) (rx : string) :
  for_each (partsofspeech.regex_body (pre ++ rest))
           (enumerate_from (Z.of_nat (length pre)) rest) rx
  = Ok (rx +++ windows rest).
Proof.
  revert pre rx. induction rest as [|a rest IH]; intros pre rx.
  - cbn [enumerate_from for_each windows]. now rewrite append_empty_r.
  - cbn [enumerate_from for_each].
    assert (IH' : forall rx',
               for_each (partsofspeech.regex_body (pre ++ a :: rest))
                        (enumerate_from (Z.of_nat (length pre) + 1) rest) rx'
               = Ok (rx' +++ windows rest)).
    { intros rx'. specialize (IH (pre ++ [a]) rx').
      rewrite <- app_assoc in IH. cbn [app] in IH.
      rewrite length_app in IH. cbn [length] in IH.
      replace (Z.of_nat (length pre + 1)) with (Z.of_nat (length pre) + 1)%Z in IH by lia.
      exact IH. }
    assert (Ha : py_getitem (pre ++ a :: rest) (Z.of_nat (length pre)) = Ok a).
    { apply py_getitem_nonneg. rewrite nth_error_app2, Nat.sub_diag by lia. reflexivity. }
    unfold partsofspeech.regex_body at 1. cbn [fst snd].
    rewrite length_app.
    destruct rest as [|b t].
    + cbn [length]. decide_index. decide_index.
      cbn [bind]. rewrite IH'. reflexivity.
    + assert (Hb : py_getitem (pre ++ a :: b :: t) (Z.of_nat (length pre) + 1) = Ok b).
      { replace (Z.of_nat (length pre) + 1)%Z with (Z.of_nat (S (length pre))) by lia.
        apply py_getitem_nonneg.
        rewrite nth_error_app2 by lia.
        replace (S (length pre) - length pre) with 1 by lia. reflexivity. }
      destruct t as [|c t]; cbn [length].
      * decide_index. decide_index.
        rewrite Ha, Hb. cbn [bind]. rewrite IH'. cbn [windows].
        now rewrite !append_assoc.
      * decide_index.
        rewrite Ha, Hb. cbn [bind]. rewrite IH'.
        change (windows (a :: b :: c :: t))
          with (a +++ " " +++ b +++ "|" +++ windows (b :: c :: t)).
        now rewrite !append_assoc.
Qed.

Lemma prep_pairs_regex_windows (preposition_pairs : list string) :
  partsofspeech.prep_pairs_regex preposition_pairs
  = Ok ("(?:" +++ windows preposition_pairs).
Proof.
  unfold partsofspeech.prep_pairs_regex, enumerate.
  exact (regex_loop_windows preposition_pairs [] "(?:").
Qed.

(** C6: the pattern loop of the distancing detector visits every entry of the
    trigger list, not every second one: two bigrams (a, b) and (c, d) give
    the three alternatives "a b", "b c", "c d", the middle one made of the
    second token of the first bigram and the first token of the next. *)
Theorem pairs_joined_by_sliding_window :
  (forall a b c d,
      partsofspeech.prep_pairs_regex [a; b; c; d]
      = Ok ("(?:" +++ a +++ " " +++ b +++ "|" +++ b +++ " " +++ c +++ "|"
            +++ c +++ " " +++ d +++ ")"))
  /\ partsofspeech.prep_pairs_regex ["was"; "involved"; "got"; "stuck"]
     = Ok "(?:was involved|involved got|got stuck)".
Proof.
  split; [|reflexivity].
  intros a b c d. rewrite prep_pairs_regex_windows. reflexivity.
Qed.

(** ** Parsing the patterns the detectors build *)

Lemma run_app (a b : string) (st : Re.pstate) :
  Re.run (a +++ b) st
  = match Re.run a st with
    | Re.POk st' => Re.run b st'
    | Re.PError => Re.PError
    | Re.PUnmodelled => Re.PUnmodelled
    end.
Proof.
  revert st. induction a as [|c a IH]; intros st; cbn [append Re.run].
  - reflexivity.
  - destruct (Re.step st c); [apply IH | reflexivity | reflexivity].
Qed.

(** A plain character becomes a literal of the innermost open group. *)
Lemma step_plain (st : Re.pstate) (c : ascii) :
  plain_char c = true -> Re.md st = Re.Normal ->
  Re.step st c
  = Re.POk (Re.with_top st (Re.push_atom (Re.Chr false [Re.CLit c]) (Re.top st))).
Proof.
  intros Hc Hmd. unfold Re.step. rewrite Hmd. unfold Re.step_normal.
  unfold plain_char in Hc. apply negb_true_iff in Hc. rewrite Hc.
  unfold Re.is_special in Hc. cbn [existsb] in Hc.
  repeat (apply orb_false_elim in Hc; destruct Hc as [? Hc]).
  repeat match goal with
         | H : Ascii.eqb c _ = false |- _ => rewrite H; clear H
         end.
  reflexivity.
Qed.

(** Reading a plain word leaves the open groups below as they are. *)
Lemma run_plain_word (word : string) (st : Re.pstate) :
  plain_word word = true -> Re.md st = Re.Normal ->
  exists st', Re.run word st = Re.POk st'
              /\ Re.below st' = Re.below st /\ Re.md st' = Re.Normal.
Proof.
  revert st. induction word as [|c word IH]; intros st Hw Hmd.
  - exists st. now repeat split.
  - cbn [plain_word] in Hw. apply andb_true_iff in Hw. destruct Hw as [Hc Hw].
    cbn [Re.run]. rewrite step_plain by assumption.
    destruct (IH (Re.with_top st (Re.push_atom (Re.Chr false [Re.CLit c]) (Re.top st))))
      as [st' [Hrun [Hbelow Hmd']]]; [assumption | reflexivity |].
    exists st'. now repeat split.
Qed.

(** So does a separator: a space or a bar. *)
Lemma run_separator (c : ascii) (rest : string) (st : Re.pstate) :
  c = " "%char \/ c = "|"%char -> Re.md st = Re.Normal ->
  exists st', Re.run (String c rest) st = Re.run rest st'
              /\ Re.below st' = Re.below st /\ Re.md st' = Re.Normal.
Proof.
  intros [-> | ->] Hmd; cbn [Re.run]; unfold Re.step; rewrite Hmd;
    cbn; eexists; repeat split.
Qed.

(** ["a|b|c|"] read inside a group. *)
Lemma run_bars (l : list string) (st : Re.pstate) :
  forallb plain_word l = true -> Re.md st = Re.Normal ->
  exists st', Re.run (bars l) st = Re.POk st'
              /\ Re.below st' = Re.below st /\ Re.md st' = Re.Normal.
Proof.
  revert st. induction l as [|a l IH]; intros st Hl Hmd.
  - exists st. now repeat split.
  - cbn [forallb] in Hl. apply andb_true_iff in Hl. destruct Hl as [Ha Hl].
    cbn [bars]. rewrite run_app.
    destruct (run_plain_word a st Ha Hmd) as [st1 [-> [Hb1 Hm1]]].
    destruct (run_separator "|" (bars l) st1 (or_intror eq_refl) Hm1)
      as [st2 [Hrun [Hb2 Hm2]]].
    change ("|" +++ bars l) with (String "|" (bars l)). rewrite Hrun.
    destruct (IH st2 Hl Hm2) as [st3 [-> [Hb3 Hm3]]].
    exists st3. repeat split; congruence.
Qed.

(** ["a b|b c|c d)"] read inside a group closes that group. *)
Lemma run_windows (l : list string) (st : Re.pstate) (f : Re.frame)
      (fs : list Re.frame) :
  forallb plain_word l = true -> 2 <= length l ->
  Re.md st = Re.Normal -> Re.below st = f :: fs ->
  exists st' g, Re.run (windows l) st = Re.POk st'
                /\ Re.top st' = Re.push_atom g f
                /\ Re.below st' = fs /\ Re.md st' = Re.Normal.
Proof.
  revert st. induction l as [|a l IH]; intros st Hl Hlen Hmd Hbelow;
    [cbn [length] in Hlen; lia|].
  destruct l as [|b t]; [cbn [length] in Hlen; lia|].
  cbn [forallb] in Hl.
  apply andb_true_iff in Hl. destruct Hl as [Ha Hl].
  assert (Hb : plain_word b = true)
    by (apply andb_true_iff in Hl; tauto).
  change (windows (a :: b :: t))
    with (a +++ String " " (b +++ (match t with [] => ")" | _ => "|" end)
                              +++ windows (b :: t))).
  rewrite run_app.
  destruct (run_plain_word a st Ha Hmd) as [st1 [-> [Hb1 Hm1]]].
  destruct (run_separator " " (b +++ (match t with [] => ")" | _ => "|" end)
                                 +++ windows (b :: t)) st1 (or_introl eq_refl) Hm1)
    as [st2 [-> [Hb2 Hm2]]].
  rewrite run_app.
  destruct (run_plain_word b st2 Hb Hm2) as [st3 [-> [Hb3 Hm3]]].
  assert (Hbelow3 : Re.below st3 = f :: fs) by congruence.
  destruct t as [|c t].
  - cbn [windows append Re.run]. unfold Re.step. rewrite Hm3.
    unfold Re.step_normal. cbn [Ascii.eqb Bool.eqb]. rewrite Hbelow3.
    eexists. eexists. repeat split.
  - destruct (run_separator "|" (windows (b :: c :: t)) st3 (or_intror eq_refl) Hm3)
      as [st4 [Hrun [Hb4 Hm4]]].
    change ("|" +++ windows (b :: c :: t)) with (String "|" (windows (b :: c :: t))).
    rewrite Hrun.
    apply IH; [exact Hl | cbn [length]; lia | exact Hm4 | congruence].
Qed.

Lemma run_head (rest : string) :
  Re.run (pattern_head +++ rest) Re.init = Re.run rest after_head.
Proof. reflexivity. Qed.

(** With plain triggers the distancing pattern compiles, and what it matches
    starts with a whitespace character. *)
Lemma compile_distancing (l : list string) :
  forallb plain_word l = true -> 2 <= length l ->
  exists g,
    Re.compile ("\s(\w+est[^\.]*" +++ ("(?:" +++ windows l) +++ ")")
    = Re.POk (Re.Cat (Re.Chr false [Re.CSpace]) (Re.Cat g Re.Eps)).
Proof.
  intros Hl Hlen. unfold Re.compile.
  change ("\s(\w+est[^\.]*" +++ ("(?:" +++ windows l) +++ ")")
    with (pattern_head +++ windows l +++ ")").
  rewrite run_head, run_app.
  destruct (run_windows l after_head _ _ Hl Hlen eq_refl eq_refl)
    as [st' [g [-> [Htop [Hbelow Hmd]]]]].
  cbn [Re.run]. unfold Re.step. rewrite Hmd.
  unfold Re.step_normal. cbn [Ascii.eqb Bool.eqb]. rewrite Hbelow.
  cbn. now eexists.
Qed.

(** The doubt pattern never compiles: group 1 is left open. *)
Lemma compile_doubt (l : list string) :
  forallb plain_word l = true ->
  Re.compile ("\s(\w+est[^\.]*" +++ ("(?:" +++ bars l) +++ ")") = Re.PError.
Proof.
  intros Hl. unfold Re.compile.
  change ("\s(\w+est[^\.]*" +++ ("(?:" +++ bars l) +++ ")")
    with (pattern_head +++ bars l +++ ")").
  rewrite run_head, run_app.
  destruct (run_bars l after_head Hl eq_refl) as [st' [-> [Hbelow Hmd]]].
  cbn [Re.run]. unfold Re.step. rewrite Hmd.
  unfold Re.step_normal. cbn [Ascii.eqb Bool.eqb]. rewrite Hbelow.
  reflexivity.
Qed.

(** The loop of the doubt detector writes every word but the last, each
    followed by a bar; the closing parenthesis goes to another variable. *)
Lemma doubt_loop_bars (rest pre : list string) (st : string * option string) :
  exists o,
    for_each (raises_doubt.regex_body (pre ++ rest))
             (enumerate_from (Z.of_nat (length pre)) rest) st
    = Ok (fst st +++ bars (removelast rest), o).
Proof.
  revert pre st. induction rest as [|a rest IH]; intros pre st.
  - exists (snd st). cbn [enumerate_from for_each removelast bars].
    rewrite append_empty_r. now destruct st.
  - cbn [enumerate_from for_each].
    assert (IH' : forall st', exists o,
               for_each (raises_doubt.regex_body (pre ++ a :: rest))
                        (enumerate_from (Z.of_nat (length pre) + 1) rest) st'
               = Ok (fst st' +++ bars (removelast rest), o)).
    { intros st'. specialize (IH (pre ++ [a]) st').
      rewrite <- app_assoc in IH. cbn [app] in IH.
      rewrite length_app in IH. cbn [length] in IH.
      replace (Z.of_nat (length pre + 1)) with (Z.of_nat (length pre) + 1)%Z in IH by lia.
      exact IH. }
    assert (Ha : py_getitem (pre ++ a :: rest) (Z.of_nat (length pre)) = Ok a).
    { apply py_getitem_nonneg. rewrite nth_error_app2, Nat.sub_diag by lia. reflexivity. }
    unfold raises_doubt.regex_body at 1. cbn [fst snd].
    rewrite length_app, Ha.
    destruct rest as [|b t]; cbn [length].
    + decide_index. decide_index. cbn [bind].
      destruct (IH' (fst st, Some (fst st +++ a +++ ")"))) as [o ->].
      exists o. reflexivity.
    + decide_index. cbn [bind].
      destruct (IH' (fst st +++ a +++ "|", snd st)) as [o ->].
      exists o. cbn [fst].
      change (removelast (a :: b :: t)) with (a :: removelast (b :: t)).
      cbn [bars]. now rewrite !append_assoc.
Qed.

Lemma doubt_raisers_regex_bars (words : list string) :
  raises_doubt.doubt_raisers_regex words = Ok ("(?:" +++ bars (removelast words)).
Proof.
  unfold raises_doubt.doubt_raisers_regex, enumerate.
  destruct (doubt_loop_bars words [] ("(?:", None)) as [o H].
  cbn [app length Z.of_nat fst] in H. now rewrite H.
Qed.

Lemma forallb_removelast {A : Type} (p : A -> bool) (l : list A) :
  forallb p l = true -> forallb p (removelast l) = true.
Proof.
  induction l as [|x l IH]; [trivial|].
  intros H. cbn [forallb] in H. apply andb_true_iff in H. destruct H as [Hx Hl].
  destruct l as [|y l]; [reflexivity|].
  change (removelast (x :: y :: l)) with (x :: removelast (y :: l)).
  cbn [forallb]. now rewrite Hx, IH.
Qed.

(** Whatever the document, plain triggers make the doubt detector fail at
    pattern construction. *)
Lemma doubt_report_raises (hyponyms : string -> list string) (w : World) :
  forallb plain_word
          (raises_doubt.doubt_raising_words hyponyms (world_lexicon w)
                                            (doc_text (world_doc w))) = true ->
  fst (raises_doubt.get_report hyponyms w) = Raise ReError.
Proof.
  intros Hplain. unfold raises_doubt.get_report. cbn [fst].
  rewrite doubt_raisers_regex_bars. cbn [bind].
  unfold raises_doubt.DOUBT_RAISERS_REGEXES, flag_matches. cbn [for_each].
  unfold Re.finditer. rewrite compile_doubt by now apply forallb_removelast.
  reflexivity.
Qed.

(** ** What a match can span *)

Lemma star_loop_bounded (m : list ascii -> Re.cont -> option (list ascii)) :
  bounded m -> forall fuel, bounded (Re.star_loop m fuel).
Proof.
  intros Hm fuel. induction fuel as [|fuel IH]; intros s k t H; cbn [Re.star_loop] in H.
  - exists s. split; [lia | exact H].
  - destruct (m s _) as [t'|] eqn:E.
    + injection H as ->.
      apply Hm in E. destruct E as [s1 [Hlen Hk]].
      destruct (length s1 <? length s) eqn:Hlt; [|discriminate].
      apply IH in Hk. destruct Hk as [s2 [Hlen2 Hk2]].
      exists s2. split; [lia | exact Hk2].
    + exists s. split; [lia | exact H].
Qed.

Lemma rmatch_bounded (r : Re.regex) : bounded (Re.rmatch r).
Proof.
  induction r as [|neg items|r1 IH1 r2 IH2|r1 IH1 r2 IH2|r IH|r IH|c r IH];
    intros s k t H; cbn [Re.rmatch] in H.
  - exists s. split; [lia | exact H].
  - destruct s as [|c s']; [discriminate|].
    destruct (Re.chr_matches neg items c); [|discriminate].
    exists s'. split; [cbn [length]; lia | exact H].
  - apply IH1 in H. destruct H as [s1 [Hlen1 H]].
    apply IH2 in H. destruct H as [s2 [Hlen2 H]].
    exists s2. split; [lia | exact H].
  - destruct (Re.rmatch r1 s k) as [t'|] eqn:E.
    + injection H as ->. now apply IH1.
    + now apply IH2.
  - now apply (star_loop_bounded _ IH) in H.
  - apply IH in H. destruct H as [s1 [Hlen1 H]].
    apply (star_loop_bounded _ IH) in H. destruct H as [s2 [Hlen2 H]].
    exists s2. split; [lia | exact H].
  - now apply IH.
Qed.


(** Every span the scan reports lies between where the scan is and the end. *)
Lemma search_all_within (r : Re.regex) (fuel : nat) :
  forall pos s adv a b,
    In (a, b) (Re.search_all r fuel pos s adv) ->
    pos <= a /\ a <= b /\ b <= pos + length s.
Proof.
  induction fuel as [|fuel IH]; intros pos s adv a b Hin; cbn [Re.search_all] in Hin.
  - contradiction.
  - destruct (Re.rmatch r s _) as [t|] eqn:E.
    + apply rmatch_bounded in E. destruct E as [s' [Hlen Hk]].
      assert (Ht : t = s') by (destruct (adv && _); congruence).
      subst s'. destruct Hin as [Hhd | Htl].
      * injection Hhd as <- <-. lia.
      * destruct (pos + (length s - length t) =? pos) eqn:Heq.
        -- now apply IH in Htl.
        -- apply IH in Htl. lia.
    + destruct s as [|c s']; [contradiction|].
      apply IH in Hin. cbn [length]. lia.
Qed.






(** ** The trigger list of the doubt detector *)

Lemma fold_lex_append (name : string) (extra : list string) (lex : Lexicon) (n : string) :
  fold_left (fun l a => lex_append l name a) extra lex n
  = if String.eqb n name then lex n ++ extra else lex n.
Proof.
  revert lex. induction extra as [|a extra IH]; intros lex; cbn [fold_left].
  - destruct (String.eqb n name); [now rewrite app_nil_r | reflexivity].
  - rewrite IH. unfold lex_append.
    destruct (String.eqb n name); [now rewrite <- app_assoc | reflexivity].
Qed.

(** What the database holds once the hedge plurals are appended. *)
Lemma add_hedged_plurals_lookup (lex : Lexicon) (n : string) :
  raises_doubt.add_hedged_plurals lex n
  = if String.eqb n "look.v.02"
    then lex n ++ map (fun each => each +++ "s") (lex "look.v.02")
    else lex n.
Proof. unfold raises_doubt.add_hedged_plurals. apply fold_lex_append. Qed.

Lemma plain_word_app (a b : string) :
  plain_word (a +++ b) = plain_word a && plain_word b.
Proof.
  induction a as [|c a IH]; cbn [append plain_word]; [reflexivity|].
  now rewrite IH, andb_assoc.
Qed.

(** Appending the plurals keeps a plain sense plain. *)
Lemma add_hedged_plurals_plain (lex : Lexicon) (n : string) :
  forallb plain_word (lex "look.v.02") = true ->
  forallb plain_word (lex n) = true ->
  forallb plain_word (raises_doubt.add_hedged_plurals lex n) = true.
Proof.
  intros Hlook Hn. rewrite add_hedged_plurals_lookup.
  destruct (String.eqb n "look.v.02"); [|exact Hn].
  rewrite forallb_app, Hn. cbn [andb].
  apply forallb_forall. intros x Hx. apply in_map_iff in Hx.
  destruct Hx as [y [<- Hy]]. rewrite plain_word_app.
  rewrite forallb_forall in Hlook. now rewrite (Hlook y Hy).
Qed.

Lemma plain_lexicon_sense (hyponyms : string -> list string) (lex : Lexicon) (n : string) :
  plain_lexicon hyponyms lex = true -> In n (doubt_senses hyponyms) ->
  forallb plain_word (lex n) = true.
Proof.
  unfold plain_lexicon. intros H Hn. rewrite forallb_forall in H. now apply H.
Qed.

(** A plain database is still plain after a run of the doubt detector. *)
Lemma plain_lexicon_preserved (hyponyms : string -> list string) (lex : Lexicon) :
  plain_lexicon hyponyms lex = true ->
  plain_lexicon hyponyms (raises_doubt.add_hedged_plurals lex) = true.
Proof.
  intros H. unfold plain_lexicon. apply forallb_forall. intros n Hn.
  apply add_hedged_plurals_plain.
  - apply (plain_lexicon_sense hyponyms); [exact H | right; now left].
  - now apply (plain_lexicon_sense hyponyms).
Qed.

Lemma words_in_text_plain (words lowercase_text : list string) :
  forallb plain_word words = true ->
  forallb plain_word (raises_doubt.words_in_text words lowercase_text) = true.
Proof.
  intros H. apply forallb_forall. intros x Hx.
  unfold raises_doubt.words_in_text in Hx. apply filter_In in Hx.
  destruct Hx as [_ Hx]. apply py_in_In in Hx.
  rewrite forallb_forall in H. now apply H.
Qed.

Lemma senses_in_text_plain (lex : Lexicon) (synsets : list string) (deny : string)
      (lowercase_text : list string) :
  (forall y, In y synsets -> forallb plain_word (lex y) = true) ->
  forallb plain_word (raises_doubt.senses_in_text lex synsets deny lowercase_text) = true.
Proof.
  intros H. apply forallb_forall. intros x Hx.
  unfold raises_doubt.senses_in_text in Hx.
  apply in_flat_map in Hx. destruct Hx as [x' [_ Hx]].
  apply in_flat_map in Hx. destruct Hx as [y [Hy Hx]].
  destruct (py_in x' (lex y)) eqn:Hin; [|contradiction].
  destruct (negb (String.eqb x' deny)); [|contradiction].
  destruct Hx as [<- | []].
  apply py_in_In in Hin. specialize (H y Hy). rewrite forallb_forall in H. now apply H.
Qed.

(** With a plain database every trigger is a plain word. *)
Lemma doubt_raising_words_plain (hyponyms : string -> list string) (lex : Lexicon)
      (text : pytext) :
  plain_lexicon hyponyms lex = true ->
  forallb plain_word (raises_doubt.doubt_raising_words hyponyms lex text) = true.
Proof.
  intros H. unfold raises_doubt.doubt_raising_words.
  pose proof (plain_lexicon_preserved hyponyms lex H) as H'.
  rewrite !forallb_app. repeat (apply andb_true_intro; split).
  - apply words_in_text_plain.
    apply (plain_lexicon_sense hyponyms); [exact H | now left].
  - apply words_in_text_plain.
    apply (plain_lexicon_sense hyponyms); [exact H' | right; now left].
  - apply senses_in_text_plain. intros y Hy.
    apply (plain_lexicon_sense hyponyms); [exact H'|].
    unfold doubt_senses. cbn [app In]. right; right. apply in_or_app. now left.
  - apply senses_in_text_plain. intros y Hy.
    apply (plain_lexicon_sense hyponyms); [exact H'|].
    unfold doubt_senses. cbn [app In]. right; right. apply in_or_app. now right.
Qed.

(** Every trigger is a (lower-cased) token of the text. *)
Lemma doubt_raising_words_tokens (hyponyms : string -> list string) (lex : Lexicon)
      (text : pytext) (x : string) :
  In x (raises_doubt.doubt_raising_words hyponyms lex text) ->
  In x (map lower (iter_text text)).
Proof.
  unfold raises_doubt.doubt_raising_words. intros H.
  repeat (apply in_app_or in H; destruct H as [H | H]).
  - apply filter_In in H. tauto.
  - apply filter_In in H. tauto.
  - unfold raises_doubt.faint_praise_in_text, raises_doubt.senses_in_text in H.
    apply in_flat_map in H. destruct H as [x' [Hx' H]].
    apply in_flat_map in H. destruct H as [y [_ H]].
    destruct (py_in x' _); [|contradiction].
    destruct (negb _); [|contradiction].
    destruct H as [<- | []]. exact Hx'.
  - unfold raises_doubt.irrelevancies_in_text, raises_doubt.senses_in_text in H.
    apply in_flat_map in H. destruct H as [x' [Hx' H]].
    apply in_flat_map in H. destruct H as [y [_ H]].
    destruct (py_in x' _); [|contradiction].
    destruct (negb _); [|contradiction].
    destruct H as [<- | []]. exact Hx'.
Qed.

(** The denied word never comes out of a sense lookup. *)
Lemma senses_in_text_deny (lex : Lexicon) (synsets : list string) (deny : string)
      (lowercase_text : list string) :
  ~ In deny (raises_doubt.senses_in_text lex synsets deny lowercase_text).
Proof.
  intros H. unfold raises_doubt.senses_in_text in H.
  apply in_flat_map in H. destruct H as [x [_ H]].
  apply in_flat_map in H. destruct H as [y [_ H]].
  destruct (py_in x (lex y)); [|contradiction].
  destruct (String.eqb x deny) eqn:E; cbn [negb] in H; [contradiction|].
  destruct H as [<- | []]. now rewrite String.eqb_refl in E.
Qed.

(** A text made of the denied word alone yields nothing from the lookup. *)
Lemma senses_in_text_only_deny (lex : Lexicon) (synsets : list string) (deny : string)
      (lowercase_text : list string) :
  (forall x, In x lowercase_text -> x = deny) ->
  raises_doubt.senses_in_text lex synsets deny lowercase_text = [].
Proof.
  intros Hall.
  destruct (raises_doubt.senses_in_text lex synsets deny lowercase_text) as [|x l] eqn:E;
    [reflexivity|].
  exfalso.
  assert (Hx : In x (raises_doubt.senses_in_text lex synsets deny lowercase_text))
    by (rewrite E; now left).
  assert (x = deny).
  { unfold raises_doubt.senses_in_text in Hx.
    apply in_flat_map in Hx. destruct Hx as [x' [Hx' Hx]].
    apply in_flat_map in Hx. destruct Hx as [y [_ Hx]].
    destruct (py_in x' (lex y)); [|contradiction].
    destruct (negb _); [|contradiction].
    destruct Hx as [<- | []]. now apply Hall. }
  subst x. now apply senses_in_text_deny in Hx.
Qed.

(** ** Empty trigger lists *)

(** C1: with an empty trigger list neither detector builds a pattern that
    matches nothing: the distancing detector writes "(?:" and never closes
    it, the doubt detector likewise, so the pattern given to [re] leaves
    group 1 open and [get_report] raises re.error instead of returning a
    report without flags. *)
Theorem empty_triggers_raise
        (pos_tag : list string -> list (string * string))
        (hyponyms : string -> list string) (w : World) :
  (partsofspeech.find_preposition_pairs pos_tag (doc_text (world_doc w)) = Ok [] ->
   fst (partsofspeech.get_report pos_tag w) = Raise ReError)
  /\ (raises_doubt.doubt_raising_words hyponyms (world_lexicon w)
                                       (doc_text (world_doc w)) = [] ->
      fst (raises_doubt.get_report hyponyms w) = Raise ReError).
Proof.
  split.
  - intros H. unfold partsofspeech.get_report. cbn [fst]. rewrite H.
    cbn [bind]. rewrite prep_pairs_regex_windows. cbn [bind windows].
    unfold partsofspeech.PART_OF_SPEECH_REGEXES, flag_matches. cbn [for_each].
    unfold Re.finditer.
    change (Re.compile ("\s(\w+est[^\.]*" +++ ("(?:" +++ "") +++ ")")) with (@Re.PError Re.regex).
    reflexivity.
  - intros H. apply doubt_report_raises. now rewrite H.
Qed.

Lemma empty_triggers_raise_witness :
  fst (partsofspeech.get_report Sample.tagger (Sample.world (PyStr "She is a leader.")))
  = Raise ReError
  /\ fst (raises_doubt.get_report Sample.hyponyms
            (Sample.world (PyStr "She is a leader.")))
     = Raise ReError.
Proof.
  destruct (empty_triggers_raise Sample.tagger Sample.hyponyms
              (Sample.world (PyStr "She is a leader."))) as [Hpos Hdoubt].
  split; [apply Hpos | apply Hdoubt]; reflexivity.
Defined.

(** ** The denylist of the doubt detector *)

Lemma only_token_plain (text : pytext) (word : string) (l : list string) :
  plain_word word = true ->
  (forall t, In t (iter_text text) -> lower t = word) ->
  (forall x, In x l -> In x (map lower (iter_text text))) ->
  forallb plain_word l = true.
Proof.
  intros Hplain Hall Hsub. apply forallb_forall. intros x Hx.
  apply Hsub in Hx. apply in_map_iff in Hx. destruct Hx as [t [<- Ht]].
  now rewrite (Hall t Ht).
Qed.

(** C5: "want" never enters the trigger list through the faint-praise senses
    and "benedict" never through the irrelevancy senses, whatever the
    database says; a text whose tokens are all "want" (or all "benedict")
    gets nothing from those senses and no flag is produced for it. *)
Theorem denylist_applied (hyponyms : string -> list string) (lex : Lexicon)
        (text : pytext) :
  ~ In "want" (raises_doubt.faint_praise_in_text lex (map lower (iter_text text)))
  /\ ~ In "benedict"
       (raises_doubt.irrelevancies_in_text hyponyms lex (map lower (iter_text text)))
  /\ ((forall t, In t (iter_text text) -> lower t = "want") ->
      raises_doubt.faint_praise_in_text lex (map lower (iter_text text)) = []
      /\ produced_flags
           (fst (raises_doubt.get_report hyponyms (mkWorld (mkDocument text) lex))) = [])
  /\ ((forall t, In t (iter_text text) -> lower t = "benedict") ->
      raises_doubt.irrelevancies_in_text hyponyms lex (map lower (iter_text text)) = []
      /\ produced_flags
           (fst (raises_doubt.get_report hyponyms (mkWorld (mkDocument text) lex))) = []).
Proof.
  split; [apply senses_in_text_deny|].
  split; [apply senses_in_text_deny|].
  split; intros Hall; (split; [apply senses_in_text_only_deny |]).
  - intros x Hx. apply in_map_iff in Hx. destruct Hx as [t [<- Ht]]. now apply Hall.
  - rewrite doubt_report_raises; [reflexivity|].
    apply (only_token_plain text "want"); [reflexivity | exact Hall |].
    cbn [world_lexicon world_doc doc_text]. apply doubt_raising_words_tokens.
  - intros x Hx. apply in_map_iff in Hx. destruct Hx as [t [<- Ht]]. now apply Hall.
  - rewrite doubt_report_raises; [reflexivity|].
    apply (only_token_plain text "benedict"); [reflexivity | exact Hall |].
    cbn [world_lexicon world_doc doc_text]. apply doubt_raising_words_tokens.
Qed.

Lemma denylist_applied_witness :
  (py_in "want" (Sample.lexicon "lack.n.01") = true
   /\ raises_doubt.faint_praise_in_text Sample.lexicon (map lower ["want"]) = []
   /\ produced_flags
        (fst (raises_doubt.get_report Sample.hyponyms
                (mkWorld (mkDocument (PyList ["want"])) Sample.lexicon))) = [])
  /\ (In "benedict.n.01" (raises_doubt.irrelevancies_synsets Sample.hyponyms)
      /\ py_in "benedict" (Sample.lexicon "benedict.n.01") = true
      /\ raises_doubt.irrelevancies_in_text Sample.hyponyms Sample.lexicon
           (map lower ["Benedict"]) = []
      /\ produced_flags
           (fst (raises_doubt.get_report Sample.hyponyms
                   (mkWorld (mkDocument (PyList ["Benedict"])) Sample.lexicon))) = []).
Proof.
  split.
  - split; [reflexivity|].
    destruct (denylist_applied Sample.hyponyms Sample.lexicon (PyList ["want"]))
      as [_ [_ [Hwant _]]].
    apply Hwant. intros t [<- | []]. reflexivity.
  - split; [vm_compute; tauto|]. split; [reflexivity|].
    destruct (denylist_applied Sample.hyponyms Sample.lexicon (PyList ["Benedict"]))
      as [_ [_ [_ Hbenedict]]].
    apply Hbenedict. intros t [<- | []]. reflexivity.
Defined.

(** ** Flag spans *)





(** ** Calling a detector twice *)

(** The doubt detector leaves the senses of [look.v.02] longer than it found
    them. *)
Lemma doubt_detector_extends_lexicon (hyponyms : string -> list string) (w : World) :
  world_lexicon (snd (raises_doubt.get_report hyponyms w)) "look.v.02"
  = world_lexicon w "look.v.02"
    ++ map (fun each => each +++ "s") (world_lexicon w "look.v.02").
Proof.
  unfold raises_doubt.get_report. cbn [snd world_lexicon].
  now rewrite add_hedged_plurals_lookup.
Qed.

(** Tokens of a string are single characters, lower-cased or not. *)
Lemma str_tokens_single (s : string) (x : string) :
  In x (map lower (chars_of s)) -> String.length x = 1.
Proof.
  intros H. apply in_map_iff in H. destruct H as [t [<- Ht]].
  unfold chars_of in Ht. apply in_map_iff in Ht. destruct Ht as [c [<- _]].
  reflexivity.
Qed.

Lemma append_length (a b : string) :
  String.length (a +++ b) = String.length a + String.length b.
Proof. induction a as [|c a IH]; cbn; [reflexivity | now rewrite IH]. Qed.

(** A one-character word found among plurals is "s", the plural of "". *)
Lemma single_char_plural (x : string) (l : list string) :
  String.length x = 1 ->
  In x (map (fun each => each +++ "s") l) -> x = "s" /\ In "" l.
Proof.
  intros Hlen H. apply in_map_iff in H. destruct H as [y [<- Hy]].
  rewrite append_length in Hlen. cbn in Hlen.
  destruct y as [|c y]; [now split | cbn in Hlen; lia].
Qed.

(** A second round of plurals adds no one-character word. *)
Lemma single_char_second_plurals (x : string) (l : list string) :
  String.length x = 1 ->
  let once := l ++ map (fun each => each +++ "s") l in
  py_in x (once ++ map (fun each => each +++ "s") once) = py_in x once.
Proof.
  intros Hlen once. unfold py_in. rewrite existsb_app.
  fold (py_in x once). fold (py_in x (map (fun each => each +++ "s") once)).
  destruct (py_in x once) eqn:Honce; [reflexivity|].
  destruct (py_in x (map (fun each => each +++ "s") once)) eqn:Htwice; [|reflexivity].
  exfalso. apply py_in_In in Htwice.
  destruct (single_char_plural x once Hlen Htwice) as [-> Hempty].
  assert (Hin : In "s" once).
  { unfold once in Hempty |- *. apply in_app_or in Hempty.
    apply in_or_app. right. destruct Hempty as [Hl | Hpl].
    - apply in_map_iff. now exists "".
    - apply in_map_iff in Hpl. destruct Hpl as [y [Hy _]].
      destruct y; discriminate. }
  apply py_in_In in Hin. congruence.
Qed.

(** For a one-character word, looking a sense up after the second round of
    plurals gives what it gave after the first. *)
Lemma single_char_lookup (lex : Lexicon) (x y : string) :
  String.length x = 1 ->
  py_in x (raises_doubt.add_hedged_plurals (raises_doubt.add_hedged_plurals lex) y)
  = py_in x (raises_doubt.add_hedged_plurals lex y).
Proof.
  intros Hlen.
  rewrite (add_hedged_plurals_lookup (raises_doubt.add_hedged_plurals lex) y).
  destruct (String.eqb y "look.v.02") eqn:E; [|reflexivity].
  apply String.eqb_eq in E. subst y.
  rewrite (add_hedged_plurals_lookup lex "look.v.02"). cbn [String.eqb Ascii.eqb Bool.eqb].
  now apply single_char_second_plurals.
Qed.

Lemma words_in_text_ext (words words' tokens : list string) :
  (forall x, In x tokens -> py_in x words = py_in x words') ->
  raises_doubt.words_in_text words tokens = raises_doubt.words_in_text words' tokens.
Proof. intros H. unfold raises_doubt.words_in_text. now apply filter_ext_in. Qed.

Lemma senses_in_text_ext (lex lex' : Lexicon) (synsets : list string) (deny : string)
      (tokens : list string) :
  (forall x y, In x tokens -> py_in x (lex y) = py_in x (lex' y)) ->
  raises_doubt.senses_in_text lex synsets deny tokens
  = raises_doubt.senses_in_text lex' synsets deny tokens.
Proof.
  intros H. unfold raises_doubt.senses_in_text.
  induction tokens as [|x tokens IH]; [reflexivity|].
  cbn [flat_map]. rewrite IH by (intros; apply H; now right).
  f_equal. apply flat_map_ext. intros y. rewrite (H x y) by now left.
  reflexivity.
Qed.

(** On a string the trigger list is the same the second time round. *)
Lemma doubt_raising_words_again (hyponyms : string -> list string) (lex : Lexicon)
      (s : string) :
  raises_doubt.doubt_raising_words hyponyms (raises_doubt.add_hedged_plurals lex) (PyStr s)
  = raises_doubt.doubt_raising_words hyponyms lex (PyStr s).
Proof.
  unfold raises_doubt.doubt_raising_words. cbn [iter_text].
  f_equal; [f_equal; [f_equal|]|].
  - unfold raises_doubt.neg_words_in_text.
    now rewrite add_hedged_plurals_lookup.
  - unfold raises_doubt.hedged_words_in_text. apply words_in_text_ext.
    intros x Hx. apply single_char_lookup. now apply (str_tokens_single s).
  - unfold raises_doubt.faint_praise_in_text. apply senses_in_text_ext.
    intros x y Hx. apply single_char_lookup. now apply (str_tokens_single s).
  - unfold raises_doubt.irrelevancies_in_text. apply senses_in_text_ext.
    intros x y Hx. apply single_char_lookup. now apply (str_tokens_single s).
Qed.

(** C9: a second call of [get_report] on the same document ends as the first
    one did, with the same report (flags, label and summary) or the same
    exception, and no call changes the document.  The distancing and the
    superlative detector change nothing at all; the doubt detector appends to
    the lexical database, which does not show in its result when the text is
    a string or the lemmas it looks up are plain words. *)
Theorem get_report_repeatable
        (pos_tag : list string -> list (string * string))
        (hyponyms : string -> list string) (w : World) :
  (let first := partsofspeech.get_report pos_tag w in
   let second := partsofspeech.get_report pos_tag (snd first) in
   fst second = fst first /\ snd first = w /\ snd second = w)
  /\ (let first := superlatives.get_report pos_tag w in
      let second := superlatives.get_report pos_tag (snd first) in
      fst second = fst first /\ snd first = w /\ snd second = w)
  /\ (is_str (doc_text (world_doc w)) || plain_lexicon hyponyms (world_lexicon w) = true ->
      let first := raises_doubt.get_report hyponyms w in
      let second := raises_doubt.get_report hyponyms (snd first) in
      fst second = fst first
      /\ world_doc (snd first) = world_doc w /\ world_doc (snd second) = world_doc w).
Proof.
  split; [|split].
  - cbv zeta. now repeat split.
  - cbv zeta. now repeat split.
  - intros Hor. cbv zeta. split; [|now split].
    apply orb_true_iff in Hor. destruct Hor as [Hstr | Hlex].
    + destruct w as [[text] lex]. cbn [world_doc doc_text] in Hstr.
      destruct text as [s|l]; [|discriminate].
      unfold raises_doubt.get_report.
      cbn [fst snd world_doc world_lexicon doc_text].
      now rewrite doubt_raising_words_again.
    + rewrite (doubt_report_raises hyponyms w)
        by now apply doubt_raising_words_plain.
      apply doubt_report_raises. apply doubt_raising_words_plain.
      unfold raises_doubt.get_report. cbn [snd world_lexicon].
      now apply plain_lexicon_preserved.
Qed.

Lemma get_report_repeatable_witness :
  fst (raises_doubt.get_report Sample.hyponyms
         (snd (raises_doubt.get_report Sample.hyponyms
                 (Sample.world (PyList ["she"; "seems"; "the"; "best"])))))
  = fst (raises_doubt.get_report Sample.hyponyms
           (Sample.world (PyList ["she"; "seems"; "the"; "best"])))
  /\ world_doc (snd (raises_doubt.get_report Sample.hyponyms
                       (Sample.world (PyList ["she"; "seems"; "the"; "best"]))))
     = world_doc (Sample.world (PyList ["she"; "seems"; "the"; "best"]))
  /\ world_doc
       (snd (raises_doubt.get_report Sample.hyponyms
               (snd (raises_doubt.get_report Sample.hyponyms
                       (Sample.world (PyList ["she"; "seems"; "the"; "best"]))))))
     = world_doc (Sample.world (PyList ["she"; "seems"; "the"; "best"])).
Proof.
  apply (get_report_repeatable Sample.tagger Sample.hyponyms
           (Sample.world (PyList ["she"; "seems"; "the"; "best"]))).
  reflexivity.
Defined.

(** * Further properties of the detectors *)

(** ** The patterns as they are written *)

(** The pattern loop of the distancing detector never raises.  Fewer than two
    entries leave the bare opening "(?:"; n >= 2 entries give n - 1
    alternatives, each entry joined to the one after it by a space, bars in
    between and one closing parenthesis at the end. *)
Theorem distancing_pattern_shape (preposition_pairs : list string) :
  partsofspeech.prep_pairs_regex preposition_pairs
  = Ok ("(?:" +++ windows preposition_pairs)
  /\ (length preposition_pairs < 2 ->
      partsofspeech.prep_pairs_regex preposition_pairs = Ok "(?:").
Proof.
  split; [apply prep_pairs_regex_windows|].
  intros Hlen. rewrite prep_pairs_regex_windows.
  destruct preposition_pairs as [|a [|b t]]; [reflexivity | reflexivity |].
  cbn [length] in Hlen. lia.
Qed.

Lemma distancing_pattern_shape_witness :
  partsofspeech.prep_pairs_regex ["was"] = Ok "(?:".
Proof.
  apply (distancing_pattern_shape ["was"]). cbn [length]. lia.
Defined.

(** The pattern loop of the doubt detector never raises and never closes the
    group: it writes every trigger but the last, each followed by a bar.  The
    last trigger is in no pattern. *)
Theorem doubt_pattern_drops_last (words : list string) (last_word : string) :
  raises_doubt.doubt_raisers_regex (words ++ [last_word]) = Ok ("(?:" +++ bars words)
  /\ raises_doubt.doubt_raisers_regex [] = Ok "(?:".
Proof.
  split; [|reflexivity].
  rewrite doubt_raisers_regex_bars. now rewrite removelast_last.
Qed.

(** With plain lemmas in the database the doubt detector returns no report,
    whatever the document: the pattern it builds leaves group 1 open and the
    call ends in re.error, after the hedge plurals have been appended to the
    database. *)
Theorem doubt_detector_always_raises (hyponyms : string -> list string) (w : World) :
  plain_lexicon hyponyms (world_lexicon w) = true ->
  raises_doubt.get_report hyponyms w
  = (Raise ReError,
     mkWorld (world_doc w) (raises_doubt.add_hedged_plurals (world_lexicon w))).
Proof.
  intros Hlex.
  rewrite (surjective_pairing (raises_doubt.get_report hyponyms w)).
  rewrite doubt_report_raises by now apply doubt_raising_words_plain.
  reflexivity.
Qed.

Lemma doubt_detector_always_raises_witness :
  raises_doubt.doubt_raising_words Sample.hyponyms Sample.lexicon
    (PyList ["She"; "seems"; "not"; "the"; "best"]) = ["not"; "seems"]
  /\ fst (raises_doubt.get_report Sample.hyponyms
            (Sample.world (PyList ["She"; "seems"; "not"; "the"; "best"])))
     = Raise ReError.
Proof.
  split; [reflexivity|].
  rewrite (doubt_detector_always_raises Sample.hyponyms
             (Sample.world (PyList ["She"; "seems"; "not"; "the"; "best"])));
    reflexivity.
Defined.

(** ** The lexical database across calls *)

Lemma doubt_calls_lookup (hyponyms : string -> list string) (n : nat) (w : World)
      (name : string) :
  String.eqb name "look.v.02" = false ->
  world_lexicon (doubt_calls hyponyms n w) name = world_lexicon w name.
Proof.
  intros Hname. induction n as [|n IH]; [reflexivity|].
  cbn [doubt_calls]. unfold raises_doubt.get_report at 1. cbn [snd world_lexicon].
  now rewrite add_hedged_plurals_lookup, Hname.
Qed.

Lemma doubt_calls_length (hyponyms : string -> list string) (n : nat) (w : World) :
  length (world_lexicon (doubt_calls hyponyms n w) "look.v.02")
  = 2 ^ n * length (world_lexicon w "look.v.02").
Proof.
  induction n as [|n IH]; [cbn; lia|].
  cbn [doubt_calls]. unfold raises_doubt.get_report at 1. cbn [snd world_lexicon].
  rewrite add_hedged_plurals_lookup. cbn [String.eqb Ascii.eqb Bool.eqb].
  rewrite length_app, length_map, IH. rewrite Nat.pow_succ_r'. lia.
Qed.

(** Every call of the doubt detector, failed or not, doubles the list the
    database holds for look.v.02 (the old lemmas, then each with an "s") and
    leaves the document and every other sense alone: after n calls the list
    is 2^n times as long. *)
Theorem hedge_plurals_accumulate (hyponyms : string -> list string) (n : nat) (w : World) :
  (forall name,
      world_lexicon (snd (raises_doubt.get_report hyponyms w)) name
      = if String.eqb name "look.v.02"
        then world_lexicon w name
             ++ map (fun each => each +++ "s") (world_lexicon w "look.v.02")
        else world_lexicon w name)
  /\ length (world_lexicon (doubt_calls hyponyms n w) "look.v.02")
     = 2 ^ n * length (world_lexicon w "look.v.02")
  /\ (forall name, String.eqb name "look.v.02" = false ->
                   world_lexicon (doubt_calls hyponyms n w) name = world_lexicon w name).
Proof.
  split; [|split].
  - intros name. unfold raises_doubt.get_report. cbn [snd world_lexicon].
    apply add_hedged_plurals_lookup.
  - apply doubt_calls_length.
  - intros name. apply doubt_calls_lookup.
Qed.

Lemma hedge_plurals_accumulate_witness :
  world_lexicon (doubt_calls Sample.hyponyms 2 (Sample.world (PyStr "She seems fine.")))
                "not.r.01"
  = Sample.lexicon "not.r.01"
  /\ world_lexicon (doubt_calls Sample.hyponyms 2 (Sample.world (PyStr "She seems fine.")))
                   "look.v.02"
     = ["look"; "appear"; "seem"; "looks"; "appears"; "seems";
        "looks"; "appears"; "seems"; "lookss"; "appearss"; "seemss"].
Proof.
  split; [|reflexivity].
  apply (hedge_plurals_accumulate Sample.hyponyms 2
           (Sample.world (PyStr "She seems fine."))).
  reflexivity.
Defined.

(** ** The senses of the irrelevancy category *)

Lemma substring_prefix (b c : string) :
  substring 0 (String.length b) (b +++ c) = b.
Proof.
  induction b as [|x b IH]; cbn [append String.length substring].
  - destruct c; reflexivity.
  - now rewrite IH.
Qed.

(** [str(synset)[8:-2]] gives back the name of the sense. *)
Lemma slice_synset_str (name : string) : slice_8_m2 (synset_str name) = name.
Proof.
  unfold slice_8_m2, synset_str.
  replace (String.length ("Synset('" +++ name +++ "')") - 10) with (String.length name).
  - cbn [append substring]. apply substring_prefix.
  - rewrite !append_length. cbn [String.length]. lia.
Qed.

(** The senses looked up for irrelevancies are the six seed senses followed by
    the direct hyponyms of religion.n.01, in the order the database lists them:
    taking the name out of the printed form of a sense loses nothing. *)
Theorem irrelevancy_senses_are_seed_and_hyponyms (hyponyms : string -> list string) :
  raises_doubt.irrelevancies_synsets hyponyms
  = ["church.n.03"; "religion.n.01"; "religious.s.01"; "wife.n.01"; "spouse.n.01";
     "husband.n.01"] ++ hyponyms "religion.n.01".
Proof.
  unfold raises_doubt.irrelevancies_synsets, raises_doubt.irrelevancies_seed.
  f_equal. rewrite <- (map_id (hyponyms "religion.n.01")) at 2.
  apply map_ext. apply slice_synset_str.
Qed.

(** ** The distancing scan as a whole *)

Lemma is_verb_nonempty (tag : string) :
  String.eqb tag "" = false -> partsofspeech.is_verb tag = Ok (verb_tag tag).
Proof. destruct tag; [discriminate | reflexivity]. Qed.

Lemma py_getitem_app_offset {A : Type} (pre rest : list A) (k : nat) (x : A) :
  nth_error rest k = Some x ->
  py_getitem (pre ++ rest) (Z.of_nat (length pre) + Z.of_nat k) = Ok x.
Proof.
  intros H. rewrite <- Nat2Z.inj_add. apply py_getitem_nonneg.
  rewrite nth_error_app2 by lia.
  now replace (length pre + k - length pre) with k by lia.
Qed.

Lemma bigrams_at (pre : list string) (x y : string) (rest : list string) :
  nth_error (bigrams (pre ++ x :: y :: rest)) (length pre) = Some (x, y).
Proof.
  induction pre as [|a pre IH]; [reflexivity|].
  destruct pre as [|b pre]; [exact IH|].
  exact IH.
Qed.

Lemma distancing_pairs_skip (p0 : string * string) (rest : list (string * string)) :
  verb_tag (snd p0) = false \/ (exists p1 rest', rest = p1 :: rest' /\ verb_tag (snd p1) = false) ->
  distancing_pairs (p0 :: rest) = distancing_pairs rest.
Proof.
  intros H. destruct rest as [|p1 [|p2 r]]; try reflexivity.
  cbn [distancing_pairs]. destruct H as [-> | [q1 [r' [Heq Hq]]]].
  - reflexivity.
  - injection Heq as <- <-. rewrite Hq. now rewrite andb_false_r.
Qed.

Section DistancingScan.

Variable tokens : list string.
Variable word_pos : list (string * string).
Hypothesis aligned : map fst word_pos = tokens.
Hypothesis tagged : tags_nonempty word_pos = true.

Lemma tag_nonempty_in (p : string * string) :
  In p word_pos -> String.eqb (snd p) "" = false.
Proof.
  intros Hin. unfold tags_nonempty in tagged. rewrite forallb_forall in tagged.
  apply tagged in Hin. now apply negb_true_iff in Hin.
Qed.

Lemma scan_loop_pairs (rest pre : list (string * string)) (acc : list string) :
  word_pos = pre ++ rest ->
  verb_tag (snd (last rest ("", ""))) = false ->
  for_each (partsofspeech.scan_body word_pos (bigrams tokens))
           (enumerate_from (Z.of_nat (length pre)) rest) acc
  = Ok (acc ++ distancing_pairs rest).
Proof.
  revert pre acc. induction rest as [|p0 rest IH]; intros pre acc Hsplit Hlast.
  - cbn. now rewrite app_nil_r.
  - assert (Hnext : forall acc',
               for_each (partsofspeech.scan_body word_pos (bigrams tokens))
                        (enumerate_from (Z.of_nat (length pre) + 1) rest) acc'
               = Ok (acc' ++ distancing_pairs rest)).
    { intros acc'. destruct rest as [|p1 rest'].
      - cbn. now rewrite app_nil_r.
      - specialize (IH (pre ++ [p0]) acc').
        rewrite length_app in IH. cbn [length] in IH.
        replace (Z.of_nat (length pre + 1)) with (Z.of_nat (length pre) + 1)%Z in IH by lia.
        apply IH; [now rewrite <- app_assoc | exact Hlast]. }
    assert (Hp0 : String.eqb (snd p0) "" = false).
    { apply tag_nonempty_in. rewrite Hsplit. apply in_or_app. right. now left. }
    cbn [enumerate_from for_each].
    unfold partsofspeech.scan_body at 1. cbn [fst snd].
    rewrite (is_verb_nonempty _ Hp0). cbn [bind].
    destruct (verb_tag (snd p0)) eqn:Hv0.
    2:{ cbn [bind]. rewrite Hnext.
        now rewrite (distancing_pairs_skip p0 rest) by now left. }
    destruct rest as [|p1 rest]; [cbn [last] in Hlast; congruence|].
    assert (Hp1 : String.eqb (snd p1) "" = false).
    { apply tag_nonempty_in. rewrite Hsplit. apply in_or_app. right. right. now left. }
    assert (Hg1 : py_getitem word_pos (Z.of_nat (length pre) + 1) = Ok p1).
    { rewrite Hsplit. exact (py_getitem_app_offset pre (p0 :: p1 :: rest) 1 p1 eq_refl). }
    rewrite Hg1. cbn [bind]. rewrite (is_verb_nonempty _ Hp1). cbn [bind].
    destruct (verb_tag (snd p1)) eqn:Hv1.
    2:{ cbn [bind]. rewrite Hnext.
        rewrite (distancing_pairs_skip p0 (p1 :: rest)); [reflexivity|].
        right. now exists p1, rest. }
    destruct rest as [|p2 rest]; [cbn [last] in Hlast; congruence|].
    assert (Hg2 : py_getitem word_pos (Z.of_nat (length pre) + 2) = Ok p2).
    { rewrite Hsplit.
      exact (py_getitem_app_offset pre (p0 :: p1 :: p2 :: rest) 2 p2 eq_refl). }
    rewrite Hg2. cbn [bind].
    change (distancing_pairs (p0 :: p1 :: p2 :: rest))
      with ((if verb_tag (snd p0) && verb_tag (snd p1) && String.eqb (snd p2) "IN"
             then [fst p0; fst p1] else [])
            ++ distancing_pairs (p1 :: p2 :: rest)).
    rewrite Hv0, Hv1. cbn [andb].
    destruct (String.eqb (snd p2) "IN").
    + assert (Hpair : py_getitem (bigrams tokens) (Z.of_nat (length pre))
                      = Ok (fst p0, fst p1)).
      { apply py_getitem_nonneg. rewrite <- aligned, Hsplit, map_app.
        cbn [map]. rewrite <- (length_map fst pre). apply bigrams_at. }
      rewrite Hpair. cbn [bind fst snd]. rewrite Hnext.
      now rewrite <- !app_assoc.
    + cbn [bind]. rewrite Hnext. reflexivity.
Qed.

End DistancingScan.

(** When the tagger tags token for token and no tag is empty, the scan of the
    distancing detector returns exactly when the last tag is not a verb tag,
    and then with the two tokens of every verb, verb, IN place, in text order;
    when the last tag is a verb tag it raises IndexError. *)
Theorem distancing_scan_result
        (pos_tag : list string -> list (string * string)) (text : pytext) :
  map fst (pos_tag (iter_text text)) = iter_text text ->
  tags_nonempty (pos_tag (iter_text text)) = true ->
  partsofspeech.find_preposition_pairs pos_tag text
  = if verb_tag (snd (last (pos_tag (iter_text text)) ("", "")))
    then Raise IndexError
    else Ok (distancing_pairs (pos_tag (iter_text text))).
Proof.
  intros Haligned Htagged. unfold partsofspeech.find_preposition_pairs.
  destruct (verb_tag (snd (last (pos_tag (iter_text text)) ("", "")))) eqn:Hlast.
  - destruct (pos_tag (iter_text text)) as [|p l] eqn:Hpos using rev_ind;
      [discriminate|].
    clear IHl. rewrite last_last in Hlast. destruct p as [token tag].
    cbn [snd] in Hlast. destruct tag as [|c tag]; [discriminate|].
    cbn [verb_tag] in Hlast. apply Ascii.eqb_eq in Hlast. subst c.
    unfold enumerate. rewrite enumerate_from_app. cbn [enumerate_from].
    replace (0 + Z.of_nat (length l))%Z
      with (Z.of_nat (length (l ++ [(token, String "V" tag)])) - 1)%Z
      by (rewrite length_app; cbn [length]; lia).
    apply scan_raises_at_end.
  - exact (scan_loop_pairs (iter_text text) (pos_tag (iter_text text))
                           Haligned Htagged (pos_tag (iter_text text)) [] []
                           eq_refl Hlast).
Qed.

Lemma distancing_scan_result_witness :
  partsofspeech.find_preposition_pairs Sample.tagger
    (PyList ["she"; "was"; "was"; "of"; "the"; "best"])
  = Ok ["was"; "was"].
Proof.
  rewrite (distancing_scan_result Sample.tagger
             (PyList ["she"; "was"; "was"; "of"; "the"; "best"])); reflexivity.
Defined.

(** ** The found list of the superlative detector *)

(** For a text tagged token for token the found list is made index by index:
    a word is appended once for every superlative sense that lists it, so a
    lemma of two senses comes out twice, unless the tag read before it is
    PRP$. *)
Theorem found_list_by_index
        (pos_tag : list string -> list (string * string)) (lex : Lexicon)
        (text : pytext) :
  length (pos_tag (iter_text text)) = length (iter_text text) ->
  superlatives.find_superlatives pos_tag lex text
  = Ok (flat_map
          (fun cw =>
             match py_getitem (pos_tag (iter_text text)) (fst cw - 1) with
             | Ok item =>
                 if String.eqb (snd item) "PRP$" then []
                 else repeat (snd cw) (sense_count lex (snd cw))
             | _ => []
             end)
          (enumerate (map lower (iter_text text)))).
Proof.
  intros Hlen. rewrite find_superlatives_hits by exact Hlen. f_equal.
  apply flat_map_ext. intros [count word]. unfold hits. cbn [fst snd].
  destruct (sense_count lex word) eqn:Hcount; [|reflexivity].
  destruct (py_getitem _ _) as [item| |]; [|reflexivity|reflexivity].
  now destruct (String.eqb (snd item) "PRP$").
Qed.

Lemma found_list_by_index_witness :
  superlatives.find_superlatives Sample.tagger Demo.lexicon
    (PyList ["She"; "is"; "Good"]) = Ok ["good"; "good"]
  /\ fst (superlatives.get_report Sample.tagger
            (mkWorld (mkDocument (PyList ["She"; "is"; "Good"])) Demo.lexicon))
     = Ok (mkReport "Raises Doubt" []
             (Some (superlatives.superlatives_summary_prefix +++ "good and good."))).
Proof.
  assert (H : superlatives.find_superlatives Sample.tagger Demo.lexicon
                (PyList ["She"; "is"; "Good"]) = Ok ["good"; "good"]).
  { rewrite (found_list_by_index Sample.tagger Demo.lexicon
               (PyList ["She"; "is"; "Good"])); reflexivity. }
  split; [exact H|].
  unfold superlatives.get_report. cbn [fst world_doc doc_text world_lexicon].
  rewrite H. reflexivity.
Defined.

Lemma scan_without_superlatives (lex : Lexicon) (word_pos : list (string * string))
      (words : list string) (i : Z) (acc : list string) :
  (forall word, In word words -> sense_count lex word = 0) ->
  for_each (superlatives.word_body lex word_pos) (enumerate_from i words) acc = Ok acc.
Proof.
  revert i acc. induction words as [|word words IH]; intros i acc Hnone; [reflexivity|].
  cbn [enumerate_from for_each]. unfold superlatives.word_body at 1. cbn [fst snd].
  rewrite sense_loop_no_match by (apply Hnone; now left).
  cbn [bind]. apply IH. intros; apply Hnone; now right.
Qed.

(** A text none of whose tokens is a lemma of a superlative sense gets the
    prompt to add superlatives, whatever the tagger returns for it: the tags
    are read only after a word has matched.  The empty text is such a text. *)
Theorem no_superlative_gives_prompt
        (pos_tag : list string -> list (string * string)) (w : World) :
  (forall token, In token (iter_text (doc_text (world_doc w))) ->
                 sense_count (world_lexicon w) (lower token) = 0) ->
  superlatives.get_report pos_tag w
  = (Ok (mkReport "Raises Doubt" [] (Some superlatives.no_superlatives_summary)), w).
Proof.
  intros Hnone. unfold superlatives.get_report, superlatives.find_superlatives, enumerate.
  rewrite scan_without_superlatives; [reflexivity|].
  intros word Hin. apply in_map_iff in Hin. destruct Hin as [token [<- Htoken]].
  now apply Hnone.
Qed.

Lemma no_superlative_gives_prompt_witness :
  superlatives.get_report (fun _ => []) (Sample.world (PyList ["she"; "works"; "hard"]))
  = (Ok (mkReport "Raises Doubt" [] (Some superlatives.no_superlatives_summary)),
     Sample.world (PyList ["she"; "works"; "hard"])).
Proof.
  apply (no_superlative_gives_prompt (fun _ => [])
           (Sample.world (PyList ["she"; "works"; "hard"]))).
  intros token [<- | [<- | [<- | []]]]; reflexivity.
Defined.

(** ** The trigger list of the doubt detector, category by category *)

(** A token is a hedge trigger exactly when it is a lemma of look.v.02 or such
    a lemma with an "s" appended: "seems" for "seem", and "appears", but
    nothing for "seemed" or "seeming". *)
Theorem hedge_triggers_are_lemmas_and_plurals (lex : Lexicon)
        (lowercase_text : list string) (x : string) :
  In x (raises_doubt.hedged_words_in_text lex lowercase_text)
  <-> In x lowercase_text
      /\ (In x (lex "look.v.02")
          \/ exists each, In each (lex "look.v.02") /\ x = each +++ "s").
Proof.
  unfold raises_doubt.hedged_words_in_text, raises_doubt.words_in_text.
  rewrite filter_In, py_in_In, add_hedged_plurals_lookup.
  cbn [String.eqb Ascii.eqb Bool.eqb]. rewrite in_app_iff, in_map_iff.
  split; intros [Htext [Hlemma | [each H]]]; (split; [exact Htext|]).
  - now left.
  - right. exists each. destruct H as [Heq Hin]. now split.
  - now left.
  - right. exists each. destruct H as [Hin Heq]. now split.
Qed.

Lemma senses_in_text_counts (lex : Lexicon) (synsets : list string) (deny : string)
      (lowercase_text : list string) :
  raises_doubt.senses_in_text lex synsets deny lowercase_text
  = flat_map (fun x => if String.eqb x deny then []
                       else repeat x (senses_with lex synsets x))
             lowercase_text.
Proof.
  unfold raises_doubt.senses_in_text. apply flat_map_ext. intros x.
  unfold senses_with. induction synsets as [|y synsets IH]; cbn [flat_map filter].
  - now destruct (String.eqb x deny).
  - rewrite IH. destruct (py_in x (lex y)); [|reflexivity].
    destruct (String.eqb x deny); reflexivity.
Qed.

Lemma senses_with_ext (lex lex' : Lexicon) (synsets : list string) (x : string) :
  (forall y, In y synsets -> lex y = lex' y) ->
  senses_with lex synsets x = senses_with lex' synsets x.
Proof.
  intros H. unfold senses_with. f_equal. apply filter_ext_in.
  intros y Hy. now rewrite (H y Hy).
Qed.

(** Faint praise is collected per sense, not per word: every token other
    than "want" is appended once for each of the six senses that list it, so
    a word of several senses enters the trigger list several times in a
    row. *)
Theorem faint_praise_once_per_sense (lex : Lexicon) (lowercase_text : list string) :
  raises_doubt.faint_praise_in_text lex lowercase_text
  = flat_map (fun x => if String.eqb x "want" then []
                       else repeat x (senses_with lex raises_doubt.faint_praise_synsets x))
             lowercase_text.
Proof.
  unfold raises_doubt.faint_praise_in_text. rewrite senses_in_text_counts.
  apply flat_map_ext. intros x. destruct (String.eqb x "want"); [reflexivity|].
  f_equal. apply senses_with_ext. intros y Hy.
  rewrite add_hedged_plurals_lookup.
  cbn in Hy.
  repeat (destruct Hy as [<- | Hy]; [reflexivity|]). contradiction.
Qed.

(** ** What can be reported at all *)

Lemma lower_ascii_idem (c : ascii) : lower_ascii (lower_ascii c) = lower_ascii c.
Proof. destruct c as [[] [] [] [] [] [] [] []]; reflexivity. Qed.

Lemma lower_idem (s : string) : lower (lower s) = lower s.
Proof.
  induction s as [|c s IH]; cbn [lower]; [reflexivity|].
  now rewrite lower_ascii_idem, IH.
Qed.

(** What holds before a loop and is kept by every round that returns holds
    after the loop, if the loop returns. *)
Lemma for_each_invariant {A S : Type} (P : S -> Prop) (body : S -> A -> outcome S)
      (l : list A) :
  (forall s x s', In x l -> P s -> body s x = Ok s' -> P s') ->
  forall s s', P s -> for_each body l s = Ok s' -> P s'.
Proof.
  induction l as [|x l IH]; intros Hbody s s' Hs Hrun; cbn [for_each] in Hrun.
  - injection Hrun as <-. exact Hs.
  - destruct (body s x) as [s1| |] eqn:E; [|discriminate|discriminate].
    cbn [bind] in Hrun.
    apply (IH (fun s0 y s0' Hy => Hbody s0 y s0' (or_intror Hy)) s1 s');
      [|exact Hrun].
    apply (Hbody s x s1); [now left | exact Hs | exact E].
Qed.

Lemma sense_count_positive (lex : Lexicon) (word synset : string) :
  In synset superlatives.superlatives_synsets ->
  py_in word (lex synset) = true -> 1 <= sense_count lex word.
Proof.
  intros Hin Hword. unfold sense_count.
  assert (H : In synset (filter (fun y => py_in word (lex y))
                                superlatives.superlatives_synsets))
    by (apply filter_In; now split).
  destruct (filter _ _); [contradiction | cbn [length]; lia].
Qed.

(** Whatever the tagger does, a found list holds lower-cased tokens of the
    text that are lemmas of a superlative sense. *)
Lemma found_words_are_tokens (pos_tag : list string -> list (string * string))
      (lex : Lexicon) (text : pytext) (found : list string) :
  superlatives.find_superlatives pos_tag lex text = Ok found ->
  forall x, In x found ->
            In x (map lower (iter_text text)) /\ 1 <= sense_count lex x.
Proof.
  unfold superlatives.find_superlatives. intros Hrun.
  set (P := fun acc : list string =>
              forall x, In x acc ->
                        In x (map lower (iter_text text)) /\ 1 <= sense_count lex x).
  refine (for_each_invariant P _ _ _ [] found _ Hrun); [|intros x []].
  intros acc [count word] acc' Hin Hacc Hbody.
  assert (Hword : In word (map lower (iter_text text))).
  { clear - Hin. unfold enumerate in Hin. revert Hin. generalize 0%Z.
    induction (map lower (iter_text text)) as [|y l IH]; intros n Hin; [contradiction|].
    destruct Hin as [Heq | Hin]; [injection Heq as _ <-; now left|].
    right. now apply (IH (n + 1)%Z). }
  unfold superlatives.word_body in Hbody. cbn [fst snd] in Hbody.
  refine (for_each_invariant P _ _ _ acc acc' Hacc Hbody).
  intros s synset s' Hsyn Hs Hsense. unfold superlatives.sense_body in Hsense.
  destruct (py_in word (lex synset)) eqn:Hlemma;
    [|injection Hsense as <-; exact Hs].
  destruct (py_getitem (pos_tag (iter_text text)) (count - 1)) as [item| |];
    [|discriminate|discriminate].
  cbn [bind] in Hsense.
  destruct (negb (String.eqb (snd item) "PRP$")); injection Hsense as <-; [|exact Hs].
  intros x Hx. apply in_app_or in Hx. destruct Hx as [Hx | [<- | []]]; [now apply Hs|].
  split; [exact Hword | now apply (sense_count_positive lex word synset)].
Qed.

(** Tokens are lower-cased before they are looked up and lemmas are not: every
    word a detector picks (doubt trigger or superlative) is a token of the
    text in lower case, so a lemma with a capital letter in it, such as a
    proper noun, is never picked, however the text spells it. *)
Theorem picked_words_are_lowercase
        (pos_tag : list string -> list (string * string))
        (hyponyms : string -> list string) (lex : Lexicon) (text : pytext)
        (lemma : string) :
  lower lemma <> lemma ->
  ~ In lemma (raises_doubt.doubt_raising_words hyponyms lex text)
  /\ (forall found, superlatives.find_superlatives pos_tag lex text = Ok found ->
                    ~ In lemma found).
Proof.
  intros Hcapital.
  assert (Hnot : ~ In lemma (map lower (iter_text text))).
  { intros Hin. apply in_map_iff in Hin. destruct Hin as [token [Heq _]].
    apply Hcapital. rewrite <- Heq. apply lower_idem. }
  split.
  - intros Hin. now apply doubt_raising_words_tokens in Hin.
  - intros found Hrun Hin.
    now apply (found_words_are_tokens pos_tag lex text found Hrun) in Hin.
Qed.

Lemma picked_words_are_lowercase_witness :
  py_in "Benedict" (Sample.lexicon "benedict.n.01") = true
  /\ ~ In "Benedict"
       (raises_doubt.doubt_raising_words Sample.hyponyms Sample.lexicon
          (PyList ["Saint"; "Benedict"]))
  /\ (forall found,
         superlatives.find_superlatives Sample.tagger Sample.lexicon
           (PyList ["Saint"; "Benedict"]) = Ok found ->
         ~ In "Benedict" found).
Proof.
  split; [reflexivity|].
  apply (picked_words_are_lowercase Sample.tagger Sample.hyponyms Sample.lexicon
           (PyList ["Saint"; "Benedict"]) "Benedict").
  discriminate.
Defined.

(** ** The report of the distancing detector *)

Lemma search_all_ordered (r : Re.regex) (fuel : nat) :
  forall pos s adv, spans_in_order (Re.search_all r fuel pos s adv).
Proof.
  induction fuel as [|fuel IH]; intros pos s adv; cbn [Re.search_all]; [exact I|].
  destruct (Re.rmatch r s _) as [t|] eqn:E.
  - cbn [spans_in_order]. split.
    + apply Forall_forall. intros [a b] Hin. cbn [fst snd].
      destruct (pos + (length s - length t) =? pos) eqn:Heq.
      * apply Nat.eqb_eq in Heq. apply search_all_within in Hin. lia.
      * apply search_all_within in Hin. lia.
    + destruct (pos + (length s - length t) =? pos); apply IH.
  - destruct s as [|c s']; [exact I | apply IH].
Qed.

(** When the scan has found at least one bigram of plain tokens, the pattern
    compiles.  On a token list [re] then refuses the text with TypeError; on
    a string the detector returns a report labelled "Parts of Speech" without
    summary, whose flags all carry the one "Part of Speech" issue and run
    from left to right without overlap. *)
Theorem distancing_report_shape
        (pos_tag : list string -> list (string * string)) (w : World)
        (preposition_pairs : list string) :
  partsofspeech.find_preposition_pairs pos_tag (doc_text (world_doc w))
  = Ok preposition_pairs ->
  2 <= length preposition_pairs ->
  forallb plain_word preposition_pairs = true ->
  match doc_text (world_doc w) with
  | PyList _ => partsofspeech.get_report pos_tag w = (Raise TypeError, w)
  | PyStr _ =>
      exists spans,
        partsofspeech.get_report pos_tag w
        = (Ok (mkReport "Parts of Speech"
                 (map (fun sp => mkFlag (fst sp) (snd sp)
                                   (mkIssue "Part of Speech"
                                      "This phrase appears to distance the person from the position/action described."))
                      spans)
                 None), w)
        /\ spans_in_order spans
  end.
Proof.
  intros Hscan Hlen Hplain.
  destruct (compile_distancing preposition_pairs Hplain Hlen) as [g Hc].
  unfold partsofspeech.get_report. rewrite Hscan. cbn [bind].
  rewrite prep_pairs_regex_windows. cbn [bind].
  unfold partsofspeech.PART_OF_SPEECH_REGEXES, flag_matches. cbn [for_each].
  unfold Re.finditer. rewrite Hc.
  destruct (doc_text (world_doc w)) as [s | l]; [|reflexivity].
  cbn [bind].
  exists (Re.search_all (Re.Cat (Re.Chr false [Re.CSpace]) (Re.Cat g Re.Eps))
            (2 * length (list_ascii_of_string s) + 2) 0 (list_ascii_of_string s) false).
  split; [|apply search_all_ordered].
  f_equal. f_equal.
  set (spans := Re.search_all _ _ _ _ _).
  assert (H : forall rep,
             fold_left (fun r sp => add_flag r (mkFlag (fst sp) (snd sp) partsofspeech.issue))
                       spans rep
             = mkReport (report_name rep)
                 (report_flags rep
                  ++ map (fun sp => mkFlag (fst sp) (snd sp) partsofspeech.issue) spans)
                 (report_summary rep)).
  { induction spans as [|sp spans IH]; intros rep; cbn [fold_left map].
    - rewrite app_nil_r. now destruct rep.
    - rewrite IH. cbn [add_flag report_name report_flags report_summary].
      now rewrite <- app_assoc. }
  rewrite H. reflexivity.
Qed.

Lemma distancing_report_shape_witness :
  exists spans,
    partsofspeech.get_report Sample.tagger
      (Sample.world (PyStr " fastest do, d o. So the oldest d o!"))
    = (Ok (mkReport "Parts of Speech"
             (map (fun sp => mkFlag (fst sp) (snd sp)
                               (mkIssue "Part of Speech"
                                  "This phrase appears to distance the person from the position/action described."))
                  spans)
             None),
       Sample.world (PyStr " fastest do, d o. So the oldest d o!"))
    /\ spans_in_order spans.
Proof.
  apply (distancing_report_shape Sample.tagger
           (Sample.world (PyStr " fastest do, d o. So the oldest d o!"))
           ["d"; "o"]).
  - vm_compute. reflexivity.
  - cbn [length]. lia.
  - reflexivity.
Defined.

Lemma add_flags_keeps_label (issue : Issue) (spans : list (nat * nat)) (rep : Report) :
  report_name
    (fold_left (fun r sp => add_flag r (mkFlag (fst sp) (snd sp) issue)) spans rep)
  = report_name rep
  /\ report_summary
       (fold_left (fun r sp => add_flag r (mkFlag (fst sp) (snd sp) issue)) spans rep)
     = report_summary rep.
Proof.
  revert rep. induction spans as [|sp spans IH]; intros rep; cbn [fold_left].
  - now split.
  - destruct (IH (add_flag rep (mkFlag (fst sp) (snd sp) issue))) as [Hn Hs].
    now rewrite Hn, Hs.
Qed.

(** The distancing detector hands back a report only when the text is a
    string and the scan has found at least one bigram; every other call ends
    in an exception.  A report it hands back is labelled "Parts of Speech" and
    has no summary. *)
Theorem distancing_report_needs_triggers
        (pos_tag : list string -> list (string * string)) (w : World) (r : Report) :
  fst (partsofspeech.get_report pos_tag w) = Ok r ->
  is_str (doc_text (world_doc w)) = true
  /\ (exists preposition_pairs,
         partsofspeech.find_preposition_pairs pos_tag (doc_text (world_doc w))
         = Ok preposition_pairs
         /\ 2 <= length preposition_pairs)
  /\ report_name r = "Parts of Speech" /\ report_summary r = None.
Proof.
  unfold partsofspeech.get_report. cbn [fst]. intros H.
  destruct (partsofspeech.find_preposition_pairs pos_tag (doc_text (world_doc w)))
    as [pairs | e |]; [|discriminate|discriminate].
  cbn [bind] in H. rewrite prep_pairs_regex_windows in H. cbn [bind] in H.
  unfold partsofspeech.PART_OF_SPEECH_REGEXES, flag_matches in H. cbn [for_each] in H.
  unfold Re.finditer in H.
  destruct pairs as [|a [|b t]].
  - exfalso. cbn [windows] in H.
    change (Re.compile ("\s(\w+est[^\.]*" +++ ("(?:" +++ "") +++ ")"))
      with (@Re.PError Re.regex) in H.
    discriminate.
  - exfalso. cbn [windows] in H.
    change (Re.compile ("\s(\w+est[^\.]*" +++ ("(?:" +++ "") +++ ")"))
      with (@Re.PError Re.regex) in H.
    discriminate.
  - destruct (Re.compile _) as [rx | |]; [|discriminate|discriminate].
    destruct (doc_text (world_doc w)) as [s | l]; [|discriminate].
    cbn [bind] in H. injection H as <-.
    split; [reflexivity|]. split; [|apply add_flags_keeps_label].
    eexists. split; [reflexivity | cbn [length]; lia].
Qed.

Lemma distancing_report_needs_triggers_witness :
  is_str (PyStr " fastest do, d o and more.") = true
  /\ (exists preposition_pairs,
         partsofspeech.find_preposition_pairs Sample.tagger
           (PyStr " fastest do, d o and more.") = Ok preposition_pairs
         /\ 2 <= length preposition_pairs)
  /\ "Parts of Speech" = "Parts of Speech" /\ @None string = None.
Proof.
  apply (distancing_report_needs_triggers Sample.tagger
           (Sample.world (PyStr " fastest do, d o and more."))
           (mkReport "Parts of Speech" [mkFlag 0 16 partsofspeech.issue] None)).
  vm_compute. reflexivity.
Defined.

Lemma hedge_triggers_are_lemmas_and_plurals_witness :
  In "seems" (raises_doubt.hedged_words_in_text Sample.lexicon ["she"; "seems"; "tired"])
  /\ ~ In "seemed"
       (raises_doubt.hedged_words_in_text Sample.lexicon ["she"; "seemed"; "tired"]).
Proof.
  split.
  - apply (hedge_triggers_are_lemmas_and_plurals Sample.lexicon
             ["she"; "seems"; "tired"] "seems").
    split; [right; now left|]. right. exists "seem". split; [|reflexivity].
    right; right; now left.
  - intros H.
    apply (hedge_triggers_are_lemmas_and_plurals Sample.lexicon
             ["she"; "seemed"; "tired"] "seemed") in H.
    destruct H as [_ [Hlemma | [each [Hin Heq]]]].
    + repeat (destruct Hlemma as [Hlemma | Hlemma]; [discriminate|]). contradiction.
    + repeat (destruct Hin as [<- | Hin]; [discriminate|]). contradiction.
Defined.

(** * The superlative detector on a document's text *)

Lemma single_char_no_sense (lex : Lexicon) (x : string) :
  no_single_char_lemma lex = true -> String.length x = 1 -> sense_count lex x = 0.
Proof.
  intros Hlex Hlen. unfold sense_count.
  destruct (filter _ _) as [|synset l] eqn:E; [reflexivity|]. exfalso.
  assert (Hin : In synset (filter (fun y => py_in x (lex y))
                                  superlatives.superlatives_synsets))
    by (rewrite E; now left).
  apply filter_In in Hin. destruct Hin as [Hsyn Hx]. apply py_in_In in Hx.
  unfold no_single_char_lemma in Hlex. rewrite forallb_forall in Hlex.
  specialize (Hlex synset Hsyn). rewrite forallb_forall in Hlex.
  specialize (Hlex x Hx). rewrite Hlen in Hlex. discriminate.
Qed.

(** The tokens of a string are its characters: none is a word. *)
Lemma string_scan_finds_nothing (pos_tag : list string -> list (string * string))
      (lex : Lexicon) (s : string) :
  no_single_char_lemma lex = true ->
  superlatives.find_superlatives pos_tag lex (PyStr s) = Ok [].
Proof.
  intros Hlex. unfold superlatives.find_superlatives, enumerate.
  apply scan_without_superlatives. intros word Hword.
  apply single_char_no_sense; [exact Hlex|].
  now apply (str_tokens_single s).
Qed.

(** C3: the scan runs over what iterating [doc.text()] yields, and for the
    raw string a document holds that is its characters.  Unless a superlative
    sense lists a one-character lemma, no token ever matches: the found list
    is empty and the summary is the prompt to add superlatives for every
    document, "she is the best" as much as "she did her best". *)
Theorem words_of_a_string_are_never_found
        (pos_tag : list string -> list (string * string)) (lex : Lexicon) (s : string) :
  no_single_char_lemma lex = true ->
  superlatives.find_superlatives pos_tag lex (PyStr s) = Ok []
  /\ superlatives.get_report pos_tag (mkWorld (mkDocument (PyStr s)) lex)
     = (Ok (mkReport "Raises Doubt" [] (Some superlatives.no_superlatives_summary)),
        mkWorld (mkDocument (PyStr s)) lex).
Proof.
  intros Hlex. split; [now apply string_scan_finds_nothing|].
  unfold superlatives.get_report. cbn [world_doc doc_text world_lexicon].
  now rewrite string_scan_finds_nothing.
Qed.

Lemma words_of_a_string_are_never_found_witness :
  sense_count Sample.lexicon "best" = 1
  /\ superlatives.find_superlatives Sample.tagger Sample.lexicon
       (PyStr "she is the best") = Ok []
  /\ superlatives.get_report Sample.tagger
       (mkWorld (mkDocument (PyStr "she is the best")) Sample.lexicon)
     = (Ok (mkReport "Raises Doubt" [] (Some superlatives.no_superlatives_summary)),
        mkWorld (mkDocument (PyStr "she is the best")) Sample.lexicon).
Proof.
  split; [reflexivity|].
  apply (words_of_a_string_are_never_found Sample.tagger Sample.lexicon
           "she is the best").
  reflexivity.
Defined.

(** C8: a superlative that opens the text is not kept.  On the raw string of
    a document the first token is the first character, so a first word such
    as "best" is never looked up, and "best of her" gets the prompt to add
    superlatives.  And where the first token does match, the tag read is
    [word_pos[0 - 1]], that of the last token: when it is PRP$ the first
    token is dropped, so the outcome at index 0 depends on another token's
    tag ("a is" against "a it", with "a" a lemma and "s" tagged PRP$). *)
Theorem first_token_is_not_kept :
  (sense_count Sample.lexicon "best" = 1
   /\ superlatives.get_report Sample.tagger (Sample.world (PyStr "best of her"))
      = (Ok (mkReport "Raises Doubt" [] (Some superlatives.no_superlatives_summary)),
         Sample.world (PyStr "best of her")))
  /\ (forall lex init last_token word acc,
         superlatives.word_body lex (init ++ [(last_token, "PRP$")]) acc (0%Z, word)
         = Ok acc)
  /\ (fst (superlatives.get_report Short.tagger
             (mkWorld (mkDocument (PyStr "a is")) Short.lexicon))
      = Ok (mkReport "Raises Doubt" [] (Some superlatives.no_superlatives_summary))
      /\ fst (superlatives.get_report Short.tagger
                (mkWorld (mkDocument (PyStr "a it")) Short.lexicon))
         = Ok (mkReport "Raises Doubt" []
                 (Some (superlatives.superlatives_summary_prefix +++ "a.")))).
Proof.
  split; [|split].
  - split; [reflexivity|].
    unfold superlatives.get_report, Sample.world.
    cbn [world_doc doc_text world_lexicon].
    now rewrite string_scan_finds_nothing.
  - intros lex init last_token word acc.
    now apply (word_body_first lex _ acc word init last_token).
  - split; vm_compute; reflexivity.
Qed.

(** C4: the report of the superlative detector carries the summary composed
    from the found list, and nothing else: the fixed prompt to add
    superlatives when nothing was found (so for every text none of whose
    tokens is a lemma of a superlative sense), "...including <word>." for
    one word, the two words joined by " and " for two, and for three or more
    a comma after each word but the last, which follows "and ". *)
Theorem report_summary_by_count
        (pos_tag : list string -> list (string * string)) (w : World) :
  (forall found,
      superlatives.find_superlatives pos_tag (world_lexicon w) (doc_text (world_doc w))
      = Ok found ->
      exists s,
        superlatives.get_report pos_tag w = (Ok (mkReport "Raises Doubt" [] (Some s)), w)
        /\ (found = [] ->
            s = "This document contains few or no superlatives (best, most, greatest, etc) that could increase the strength of the letter. Consider adding superlatives as appropriate.")
        /\ (forall w0, found = [w0] ->
                       s = "This document contains superlatives that likely increase the strength of the letter, including "
                           +++ w0 +++ ".")
        /\ (forall w0 w1, found = [w0; w1] ->
                          s = "This document contains superlatives that likely increase the strength of the letter, including "
                              +++ w0 +++ " and " +++ w1 +++ ".")
        /\ (forall w0 w1 l wl, found = w0 :: w1 :: l ++ [wl] ->
                               s = "This document contains superlatives that likely increase the strength of the letter, including "
                                   +++ commas (w0 :: w1 :: l) +++ "and " +++ wl +++ ".")
        /\ (found = ["best"; "greatest"] ->
            s = "This document contains superlatives that likely increase the strength of the letter, including best and greatest.")
        /\ (found = ["best"; "greatest"; "top"] ->
            s = "This document contains superlatives that likely increase the strength of the letter, including best, greatest, and top."))
  /\ ((forall token, In token (iter_text (doc_text (world_doc w))) ->
                     sense_count (world_lexicon w) (lower token) = 0) ->
      superlatives.get_report pos_tag w
      = (Ok (mkReport "Raises Doubt" []
               (Some "This document contains few or no superlatives (best, most, greatest, etc) that could increase the strength of the letter. Consider adding superlatives as appropriate.")),
         w)).
Proof.
  destruct summary_by_count as [Hnone [Hprefix [Hone [Htwo [Hmany [Hex2 Hex3]]]]]].
  split.
  - intros found Hfound. exists (superlatives.summary found). split.
    + unfold superlatives.get_report. now rewrite Hfound.
    + rewrite <- Hprefix.
      split; [intros ->; exact Hnone|].
      split; [intros w0 ->; apply Hone|].
      split; [intros w0 w1 ->; apply Htwo|].
      split; [intros w0 w1 l wl ->; apply Hmany|].
      split; [intros ->; rewrite Hex2 | intros ->; rewrite Hex3]; reflexivity.
  - intros Hnone_match.
    unfold superlatives.get_report, superlatives.find_superlatives, enumerate.
    rewrite scan_without_superlatives; [reflexivity|].
    intros word Hin. apply in_map_iff in Hin. destruct Hin as [token [<- Htoken]].
    now apply Hnone_match.
Qed.

Lemma report_summary_by_count_witness :
  superlatives.get_report Sample.tagger (Sample.world (PyStr "She works hard."))
  = (Ok (mkReport "Raises Doubt" []
           (Some "This document contains few or no superlatives (best, most, greatest, etc) that could increase the strength of the letter. Consider adding superlatives as appropriate.")),
     Sample.world (PyStr "She works hard."))
  /\ superlatives.get_report Short.tagger
       (mkWorld (mkDocument (PyStr "a+a")) Short.lexicon)
     = (Ok (mkReport "Raises Doubt" []
              (Some "This document contains superlatives that likely increase the strength of the letter, including a and a.")),
        mkWorld (mkDocument (PyStr "a+a")) Short.lexicon)
  /\ superlatives.get_report Sample.tagger
       (Sample.world (PyList ["the"; "best"; "and"; "greatest"]))
     = (Ok (mkReport "Raises Doubt" []
              (Some "This document contains superlatives that likely increase the strength of the letter, including best and greatest.")),
        Sample.world (PyList ["the"; "best"; "and"; "greatest"])).
Proof.
  split; [|split].
  - destruct (report_summary_by_count Sample.tagger
                (Sample.world (PyStr "She works hard."))) as [Hfound _].
    destruct (Hfound [] eq_refl) as [s [Hreport [Hnone _]]].
    rewrite Hreport, (Hnone eq_refl). reflexivity.
  - destruct (report_summary_by_count Short.tagger
                (mkWorld (mkDocument (PyStr "a+a")) Short.lexicon)) as [Hfound _].
    destruct (Hfound ["a"; "a"] eq_refl) as [s [Hreport [_ [_ [Htwo _]]]]].
    rewrite Hreport, (Htwo "a" "a" eq_refl). reflexivity.
  - destruct (report_summary_by_count Sample.tagger
                (Sample.world (PyList ["the"; "best"; "and"; "greatest"]))) as [Hfound _].
    destruct (Hfound ["best"; "greatest"] eq_refl) as [s [Hreport [_ [_ [_ [_ [Hex2 _]]]]]]].
    rewrite Hreport, (Hex2 eq_refl). reflexivity.
Defined.
